(** * brett_ui: browser widgets (query-string builder, toggle button,
      location-aware map) embedded in Rocq.

    The three JavaScript files are embedded one module each:
    - [HttpQueryStringBuilder] from [src/js/http/HttpQueryStringBuilder.js],
    - [ToggleButton]           from [src/js/widgets/ToggleButton.js],
    - [GoogleMap]              from [src/js/widgets/GoogleMap.js].

    [JS] holds the pieces of the language the widgets rely on: numbers,
    values, the abstract equality [==] and [$.isFunction]. *)

From Stdlib Require Import List String Ascii ZArith QArith Bool Lia.
From Stdlib Require Import DecimalString.
Import ListNotations.

Local Open Scope string_scope.
Local Open Scope Z_scope.

(* ===================================================================== *)
(** * The JavaScript fragment the widgets use *)
(* ===================================================================== *)

Module JS.

(** A JavaScript number.  Every finite double is a rational; [+0] and [-0]
    are both [Finite 0] (no operator used by the widgets tells them apart). *)
Inductive number : Type :=
| NaN
| Infinity (negative : bool)
| Finite (q : Q).

(** Numeric equality as [==] and [===] see it: [NaN] equals nothing. *)
Definition number_eq (x y : number) : bool :=
  match x, y with
  | Finite p, Finite q => Qeq_bool p q
  | Infinity a, Infinity b => Bool.eqb a b
  | _, _ => false
  end.

Definition ofZ (z : Z) : number := Finite (inject_Z z).

Inductive primitive : Type :=
| Undefined
| Null
| Boolean (b : bool)
| Number (n : number)
| Str (s : string).

(** An object is represented by the primitive its [ToPrimitive] conversion
    yields (for an array or a wrapper object: its [valueOf]/[toString]). *)
Inductive value : Type :=
| Prim (p : primitive)
| Object (toPrimitive : primitive).

Definition ToNumberOfBoolean (b : bool) : number :=
  if b then ofZ 1 else ofZ 0.

Section AbstractEquality.

(** [ToNumber] applied to a string is the engine's (StringNumericLiteral
    grammar, rounding to the nearest double); it is not code of the
    widgets and stays a parameter. *)
Variable StringToNumber : string -> number.

(** ECMAScript 5.1, 11.9.3, on two primitives. *)
Definition primitiveEq (x y : primitive) : bool :=
  match x, y with
  | Undefined, Undefined | Undefined, Null
  | Null, Undefined | Null, Null => true
  | Number a, Number b => number_eq a b
  | Str a, Str b => String.eqb a b
  | Boolean a, Boolean b => Bool.eqb a b
  | Number a, Str b => number_eq a (StringToNumber b)
  | Str a, Number b => number_eq (StringToNumber a) b
  | Boolean a, Number b => number_eq (ToNumberOfBoolean a) b
  | Boolean a, Str b => number_eq (ToNumberOfBoolean a) (StringToNumber b)
  | Number a, Boolean b => number_eq a (ToNumberOfBoolean b)
  | Str a, Boolean b => number_eq (StringToNumber a) (ToNumberOfBoolean b)
  | _, _ => false
  end.

(** [x == y] where the right operand is a literal (a primitive). *)
Definition looseEq (x : value) (y : primitive) : bool :=
  match x with
  | Prim p => primitiveEq p y
  | Object d =>
      match y with
      | Number _ | Str _ => primitiveEq d y
      | Boolean b => primitiveEq d (Number (ToNumberOfBoolean b))
      | Undefined | Null => false
      end
  end.

End AbstractEquality.

(** A property that holds a host callback: [null] (the prototype default)
    or a function of the host page. *)
Inductive callback : Type :=
| CallbackNull
| CallbackFunction.

(** [$.isFunction(cb)] *)
Definition isFunction (cb : callback) : bool :=
  match cb with
  | CallbackFunction => true
  | CallbackNull => false
  end.

(** [x < y] on two numbers (ECMAScript 5.1, 11.8.5, step 3): never true
    when one of them is [NaN]. *)
Definition number_lt (x y : number) : bool :=
  match x, y with
  | NaN, _ | _, NaN => false
  | Finite p, Finite q => negb (Qle_bool q p)
  | Infinity a, Infinity b => a && negb b
  | Infinity a, Finite _ => a
  | Finite _, Infinity b => negb b
  end.

Section Conversions.

Variable StringToNumber : string -> number.

(** [ToNumber] (9.3) *)
Definition ToNumber (p : primitive) : number :=
  match p with
  | Undefined => NaN
  | Null => ofZ 0
  | Boolean b => ToNumberOfBoolean b
  | Number n => n
  | Str s => StringToNumber s
  end.

(** [p < n] and [p > n] where the right operand is a number literal: the
    left operand is converted to a number and [p > n] is [n < p]. *)
Definition lessThan (p : primitive) (n : number) : bool :=
  number_lt (ToNumber p) n.

Definition greaterThan (p : primitive) (n : number) : bool :=
  number_lt n (ToNumber p).

(** The engine's number-to-string conversion (9.8.1). *)
Variable numberToString : number -> string.

(** [ToString] (9.8), as string concatenation applies it. *)
Definition ToString (p : primitive) : string :=
  match p with
  | Undefined => "undefined"
  | Null => "null"
  | Boolean b => if b then "true" else "false"
  | Number n => numberToString n
  | Str s => s
  end.

End Conversions.

End JS.

(* ===================================================================== *)
(** * Runnable stand-ins for the engine's string functions *)
(* ===================================================================== *)

(** The widgets' methods take the engine's [ToNumber],
    [String.prototype.toUpperCase], [encodeURIComponent] and number
    printing as parameters.  To run a method on an example one needs
    functions to pass; these agree with the engine on the strings they are
    meant for (said at each one) and are used for nothing else. *)
Module Engine.

Definition isDigit (c : ascii) : bool :=
  let n := N_of_ascii c in ((48 <=? n) && (n <=? 57))%N.

Fixpoint digitsValue (s : string) (acc : Z) : option Z :=
  match s with
  | EmptyString => Some acc
  | String c rest =>
      if isDigit c
      then digitsValue rest (10 * acc + Z.of_N (N_of_ascii c) - 48)
      else None
  end.

(** [ToNumber] on a string of decimal digits short enough to be read
    exactly; every other string is answered [NaN]. *)
Definition StringToNumber (s : string) : JS.number :=
  match digitsValue s 0 with
  | Some z => JS.ofZ z
  | None => JS.NaN
  end.

Definition upper (c : ascii) : ascii :=
  let n := N_of_ascii c in
  if ((97 <=? n) && (n <=? 122))%N then ascii_of_N (n - 32) else c.

(** [toUpperCase] on ASCII text. *)
Fixpoint toUpperCase (s : string) : string :=
  match s with
  | EmptyString => EmptyString
  | String c rest => String (upper c) (toUpperCase rest)
  end.

Definition isUnreserved (c : ascii) : bool :=
  let n := N_of_ascii c in
  (((65 <=? n) && (n <=? 90)) || ((97 <=? n) && (n <=? 122))
   || ((48 <=? n) && (n <=? 57)))%N
  || existsb (Ascii.eqb c) (list_ascii_of_string "-_.!~*'()").

Definition hexDigit (n : N) : ascii :=
  match String.get (N.to_nat n) "0123456789ABCDEF" with
  | Some c => c
  | None => "0"%char
  end.

(** [encodeURIComponent] on a string given as its UTF-8 bytes. *)
Fixpoint encodeURIComponent (s : string) : string :=
  match s with
  | EmptyString => EmptyString
  | String c rest =>
      if isUnreserved c then String c (encodeURIComponent rest)
      else String "%" (String (hexDigit (N_of_ascii c / 16))
             (String (hexDigit (N_of_ascii c mod 16))
                (encodeURIComponent rest)))
  end.

(** Number-to-string conversion of an integer below 10^21 in absolute
    value: its decimal digits. *)
Definition numberToString (z : Z) : string :=
  DecimalString.NilZero.string_of_int (Z.to_int z).

(** Number-to-string conversion of a number that is an integer below 10^21
    in absolute value, of [NaN] and of the infinities; of another number
    only the integer part is printed. *)
Definition printNumber (n : JS.number) : string :=
  match n with
  | JS.NaN => "NaN"
  | JS.Infinity negative => if negative then "-Infinity" else "Infinity"
  | JS.Finite q => numberToString (Qnum q / Z.pos (Qden q))
  end.

(** [x + 1] and [x - 1] where the result is exact: on the integers up to
    2^53 in absolute value (and on every fraction that is a double together
    with its neighbour at distance 1). *)
Definition plusOne (n : JS.number) : JS.number :=
  match n with
  | JS.Finite (z # 1) => JS.Finite ((z + 1) # 1)
  | JS.Finite q => JS.Finite (Qred (q + 1))
  | _ => n
  end.

Definition minusOne (n : JS.number) : JS.number :=
  match n with
  | JS.Finite (z # 1) => JS.Finite ((z - 1) # 1)
  | JS.Finite q => JS.Finite (Qred (q - 1))
  | _ => n
  end.

End Engine.

(* ===================================================================== *)
(** * src/js/http/HttpQueryStringBuilder.js *)
(* ===================================================================== *)

Module Collection.

(** Modelled from the spec: the [Collection] class ([objects], [hasKey],
    [get], [add], [remove]) is not among the source files.  Its [objects]
    is a plain JavaScript object used as a string-keyed map; it is kept as
    the list of its own properties in [for ... in] order.  [hasKey] says
    whether the key is stored, [get] returns the stored value
    ([undefined], here [None], when there is none). *)
Record t : Type := mk { objects : list (string * string) }.

Definition empty : t := mk [].

Definition hasKey (c : t) (key : string) : bool :=
  existsb (fun kv => String.eqb (fst kv) key) (objects c).

Definition get (c : t) (key : string) : option string :=
  option_map snd (find (fun kv => String.eqb (fst kv) key) (objects c)).

Fixpoint assign (l : list (string * string)) (key val : string)
  : list (string * string) :=
  match l with
  | [] => [(key, val)]
  | (k, v) :: rest =>
      if String.eqb k key then (k, val) :: rest
      else (k, v) :: assign rest key val
  end.

Definition add (c : t) (key val : string) : t :=
  mk (assign (objects c) key val).

Definition remove (c : t) (key : string) : t :=
  mk (filter (fun kv => negb (String.eqb (fst kv) key)) (objects c)).

(** The keys visited by [for (var parameter in c.objects)]. *)
Definition forIn (c : t) : list string := map fst (objects c).

(** Property names of an object are pairwise distinct. *)
Definition wellFormed (c : t) : Prop := NoDup (forIn c).

(** The pair [kv] is stored: its key is known and [get] returns its value. *)
Definition storedIn (c : t) (kv : string * string) : Prop :=
  hasKey c (fst kv) = true /\ get c (fst kv) = Some (snd kv).

End Collection.

Module HttpQueryStringBuilder.

(** [page] holds whatever [setPage] stored (a number, a string or [null] by
    its documentation) or what the paging methods computed: a primitive
    value, 0 in the prototype. *)
Record t : Type := mk {
  baseUri : string;
  page : JS.primitive;
  queryParameters : Collection.t
}.

(** [new HttpQueryStringBuilder()] with the prototype's defaults. *)
Definition new : t := mk "/" (JS.Number (JS.ofZ 0)) Collection.empty.

Definition setBaseUri (b : t) (u : string) : t :=
  mk u (page b) (queryParameters b).

Definition setPage (b : t) (p : JS.primitive) : t :=
  mk (baseUri b) p (queryParameters b).

(** The [typeof]/[instanceof String] guard holds for every argument of
    type [string]. *)
Definition addQueryParameter (b : t) (parameter val : string) : t :=
  mk (baseUri b) (page b) (Collection.add (queryParameters b) parameter val).

Definition removeQueryParameter (b : t) (parameter : string) : t :=
  mk (baseUri b) (page b) (Collection.remove (queryParameters b) parameter).

Definition resetPageNumber (b : t) : t :=
  mk (baseUri b) (JS.Number (JS.ofZ 1)) (queryParameters b).

Definition resetQueryParams (b : t) : t :=
  mk (baseUri (resetPageNumber b)) (page (resetPageNumber b)) Collection.empty.

(** [ToString] of what [Collection.get] returned. *)
Definition toStringOfGet (o : option string) : string :=
  match o with
  | Some s => s
  | None => "undefined"
  end.

Definition concatAll (l : list string) : string :=
  fold_right String.append "" l.

(** The three methods that move the page, as the host calls them one after
    the other. *)
Inductive pageMove : Type :=
| Next        (* incrementPage() *)
| Previous    (* decrementPage() *)
| First.      (* resetPageNumber() *)

(** The settings [sendRequest] hands to [$.ajax], without their four
    closures (each one calls the host callback of the same name when it is
    a function, and touches nothing of the builder). *)
Record request : Type := mkRequest {
  type : string;
  url : string
}.

Section Methods.

(** The engine's [ToNumber] on strings, its [x + 1] and [x - 1] on numbers
    (double arithmetic), its number-to-string conversion and its
    [encodeURIComponent]. *)
Variable StringToNumber : string -> JS.number.
Variable plusOne : JS.number -> JS.number.
Variable minusOne : JS.number -> JS.number.
Variable numberToString : JS.number -> string.
Variable encodeURIComponent : string -> string.

(** [this.page++] *)
Definition incrementPage (b : t) : t :=
  mk (baseUri b)
     (JS.Number (plusOne (JS.ToNumber StringToNumber (page b))))
     (queryParameters b).

(** [if (this.page > 1) { this.page--; }] *)
Definition decrementPage (b : t) : t :=
  if JS.greaterThan StringToNumber (page b) (JS.ofZ 1)
  then mk (baseUri b)
          (JS.Number (minusOne (JS.ToNumber StringToNumber (page b))))
          (queryParameters b)
  else b.

Definition movePage (b : t) (m : pageMove) : t :=
  match m with
  | Next => incrementPage b
  | Previous => decrementPage b
  | First => resetPageNumber b
  end.

Definition movePages (ms : list pageMove) (b : t) : t :=
  fold_left movePage ms b.

(** One turn of the [for ... in] loop on the pair of locals
    [(queryString, i)]. *)
Definition appendParameter (b : t) (st : string * Z) (parameter : string)
  : string * Z :=
  let '(queryString, i) := st in
  if Collection.hasKey (queryParameters b) parameter then
    let queryString :=
      if (i =? 0) && JS.lessThan StringToNumber (page b) (JS.ofZ 1)
      then queryString ++ "?"
      else queryString ++ "&" in
    let queryString :=
      queryString ++
        (encodeURIComponent parameter ++ "=" ++
         encodeURIComponent
           (toStringOfGet (Collection.get (queryParameters b) parameter))) in
    (queryString, i + 1)
  else (queryString, i).

Definition buildQueryString (b : t) : string :=
  let queryString :=
    if JS.greaterThan StringToNumber (page b) (JS.ofZ 0)
    then "?page=" ++ JS.ToString numberToString (page b)
    else "" in
  fst (fold_left (appendParameter b)
                 (Collection.forIn (queryParameters b))
                 (queryString, 0)).

Definition sendRequest (b : t) : request :=
  mkRequest "GET" (baseUri b ++ buildQueryString b).

(** ** The query string as the specification words it *)

Definition keyValue (kv : string * string) : string :=
  encodeURIComponent (fst kv) ++ "=" ++ encodeURIComponent (snd kv).

(** The pairs one after the other, the first after ["?"] or ["&"], every
    later one after ["&"]. *)
Definition joined (questionMark : bool) (kvs : list (string * string))
  : string :=
  match kvs with
  | [] => ""
  | kv :: rest =>
      (if questionMark then "?" else "&") ++ keyValue kv ++
      concatAll (map (fun kv' => "&" ++ keyValue kv') rest)
  end.

(** ["?page=N"] exactly when the page is greater than 0. *)
Definition pagePart (p : JS.primitive) : string :=
  if JS.greaterThan StringToNumber p (JS.ofZ 0)
  then "?page=" ++ JS.ToString numberToString p
  else "".

(** The first pair comes after ["?"] when the page parameter was omitted
    and after ["&"] otherwise. *)
Definition queryStringSpec (b : t) : string :=
  pagePart (page b) ++
  joined (negb (JS.greaterThan StringToNumber (page b) (JS.ofZ 0)))
         (Collection.objects (queryParameters b)).

End Methods.

(** A builder on page 2 with two parameters, one of which needs encoding. *)
Definition searchPage : t :=
  addQueryParameter
    (addQueryParameter (setPage new (JS.Number (JS.ofZ 2))) "q" "a b")
    "lang" "en".

(** A builder whose page is one half, and one whose page is not a number,
    each with one parameter. *)
Definition halfPage : t :=
  addQueryParameter (setPage new (JS.Number (JS.Finite (1 # 2)))) "q" "a".

Definition nanPage : t :=
  addQueryParameter (setPage new (JS.Number JS.NaN)) "q" "a".

(** The integers that a double holds exactly together with their
    neighbours. *)
Definition safeInteger (z : Z) : Prop := - 2 ^ 53 < z < 2 ^ 53.

End HttpQueryStringBuilder.

(* ===================================================================== *)
(** * src/js/widgets/ToggleButton.js *)
(* ===================================================================== *)

Module ToggleButton.

Local Open Scope list_scope.

(** The fields of a [ToggleButton] that its methods read or write (the
    HTML [element] is only stored). *)
Record t : Type := mk {
  uri : string;
  serverState : Z;
  selectedState : Z;
  httpMethod : string;
  requestDataType : string;
  parameterName : string;
  isRequestInProgress : bool;
  beforeSendCallback : JS.callback;
  completeCallback : JS.callback;
  successCallback : JS.callback;
  errorCallback : JS.callback
}.

(** [new ToggleButton(element, uri, serverState, parameterName)]: the
    constructor's assignments over the prototype's defaults. *)
Definition new (uri : string) (serverState : Z) (parameterName : string) : t :=
  mk uri serverState serverState "POST" "json" parameterName false
     JS.CallbackNull JS.CallbackNull JS.CallbackNull JS.CallbackNull.

Definition set_serverState (b : t) (x : Z) : t :=
  mk (uri b) x (selectedState b) (httpMethod b) (requestDataType b)
     (parameterName b) (isRequestInProgress b) (beforeSendCallback b)
     (completeCallback b) (successCallback b) (errorCallback b).

Definition set_selectedState (b : t) (x : Z) : t :=
  mk (uri b) (serverState b) x (httpMethod b) (requestDataType b)
     (parameterName b) (isRequestInProgress b) (beforeSendCallback b)
     (completeCallback b) (successCallback b) (errorCallback b).

Definition set_isRequestInProgress (b : t) (x : bool) : t :=
  mk (uri b) (serverState b) (selectedState b) (httpMethod b)
     (requestDataType b) (parameterName b) x (beforeSendCallback b)
     (completeCallback b) (successCallback b) (errorCallback b).

(** The settings object handed to [$.ajax], without its four closures
    (they are the functions [beforeSend], [complete], [success] and [error]
    below, all bound to the one button). *)
Record request : Type := mkRequest {
  type : string;
  url : string;
  dataType : string;
  data : option (string * Z)
}.

(** What a method does to the outside: a request put on the wire, or a call
    of one of the host page's callbacks. *)
Inductive effect : Type :=
| Transmit (r : request)
| BeforeSendCallback
| CompleteCallback
| SuccessCallback (serverState : Z)
| ErrorCallback (serverState : Z).

Definition notify (cb : JS.callback) (e : effect) : list effect :=
  if JS.isFunction cb then [e] else [].

Section Methods.

Variable StringToNumber : string -> JS.number.
(** [String.prototype.toUpperCase] *)
Variable toUpperCase : string -> string.

(** [state == true || state == 1 || state == "1" ? 1 : 0] *)
Definition normalize (state : JS.value) : Z :=
  if JS.looseEq StringToNumber state (JS.Boolean true)
     || JS.looseEq StringToNumber state (JS.Number (JS.ofZ 1))
     || JS.looseEq StringToNumber state (JS.Str "1")
  then 1 else 0.

(** The [ajax.beforeSend] closure. *)
Definition beforeSend (b : t) : t * list effect :=
  let b := set_isRequestInProgress b true in
  (b, notify (beforeSendCallback b) BeforeSendCallback).

(** The [ajax.complete] closure. *)
Definition complete (b : t) : t * list effect :=
  let b := set_isRequestInProgress b false in
  (b, notify (completeCallback b) CompleteCallback).

(** The [ajax.success] closure. *)
Definition success (b : t) : t * list effect :=
  let b := set_serverState b (selectedState b) in
  (b, notify (successCallback b) (SuccessCallback (serverState b))).

(** The [ajax.error] closure. *)
Definition error (b : t) : t * list effect :=
  let b := set_selectedState b (serverState b) in
  (b, notify (errorCallback b) (ErrorCallback (serverState b))).

(** The [ajax] object of [sendRequest], [data] included. *)
Definition buildRequest (b : t) : request :=
  mkRequest (httpMethod b) (uri b) (requestDataType b)
    (if String.eqb (toUpperCase (httpMethod b)) "POST"
     then Some (parameterName b, selectedState b)
     else None).

(** [$.ajax(ajax)]: jQuery calls [ajax.beforeSend] at once (the closure
    returns [undefined], so the request is not cancelled) and hands the
    request to the transport. *)
Definition ajax (r : request) (b : t) : t * list effect :=
  let '(b, es) := beforeSend b in
  (b, es ++ [Transmit r]).

Definition sendRequest (b : t) : t * list effect :=
  if isRequestInProgress b then (b, [])
  else ajax (buildRequest b) b.

Definition selectState (state : JS.value) (b : t) : t * list effect :=
  sendRequest (set_selectedState b (normalize state)).

(** When the response arrives jQuery calls [success] or [error], then
    [complete].  The host's callbacks are recorded as effects, not run:
    this is the response when the host's [successCallback] and
    [errorCallback] do not call back into the button
    ([onResponseCalling] below is the response when they do). *)
Definition onResponse (ok : bool) (b : t) : t * list effect :=
  let '(b, es1) := if ok then success b else error b in
  let '(b, es2) := complete b in
  (b, es1 ++ es2).

(** Host code run by a callback can call back into the button:
    [calling states b] is the button after [selectState] was called with
    each of [states] in turn. *)
Fixpoint calling (states : list JS.value) (b : t) : t * list effect :=
  match states with
  | [] => (b, [])
  | v :: rest =>
      let '(b, es) := selectState v b in
      let '(b, es') := calling rest b in
      (b, es ++ es')
  end.

(** The response when the host's [successCallback] or [errorCallback]
    calls [selectState] with each of [states]: the callback runs inside
    [success] or [error] (lines 145-147 and 153-155), before [complete]
    lowers the flag. *)
Definition onResponseCalling (ok : bool) (states : list JS.value) (b : t)
  : t * list effect :=
  let '(b, es1) := if ok then success b else error b in
  let '(b, es1') :=
    if JS.isFunction (if ok then successCallback b else errorCallback b)
    then calling states b else (b, []) in
  let '(b, es2) := complete b in
  (b, es1 ++ es1' ++ es2).

(** ** The button on its page *)

(** The button, the requests that are on the wire and everything done so
    far, oldest first. *)
Record page : Type := mkPage {
  button : t;
  outstanding : list request;
  log : list effect
}.

Inductive event : Type :=
| Select (state : JS.value)   (* the host calls selectState(state) *)
| Respond (ok : bool).        (* the server answers the oldest request *)

Definition transmitted (es : list effect) : list request :=
  flat_map (fun e => match e with Transmit r => [r] | _ => [] end) es.

(** One turn of the event loop; [None] when a response is delivered and
    no request is on the wire. *)
Definition deliver (e : event) (p : page) : option page :=
  match e with
  | Select state =>
      let '(b, es) := selectState state (button p) in
      Some (mkPage b (outstanding p ++ transmitted es) (log p ++ es))
  | Respond ok =>
      match outstanding p with
      | [] => None
      | _ :: rest =>
          let '(b, es) := onResponse ok (button p) in
          Some (mkPage b rest (log p ++ es))
      end
  end.

Fixpoint run (es : list event) (p : page) : option page :=
  match es with
  | [] => Some p
  | e :: es' =>
      match deliver e p with
      | Some p' => run es' p'
      | None => None
      end
  end.

(** A page right after the button was constructed and configured. *)
Definition start (b : t) : page := mkPage b [] [].

Definition reachable (p : page) : Prop :=
  exists b es, isRequestInProgress b = false /\ run es (start b) = Some p.

(** The flag is up exactly while one request is on the wire. *)
Definition consistent (p : page) : Prop :=
  List.length (outstanding p) =
  if isRequestInProgress (button p) then 1%nat else 0%nat.

(** A scenario on a fresh button: the host selects [true], selects [null]
    while that request is on the wire, and the request succeeds. *)
Definition lateSelection : list event :=
  [Select (JS.Prim (JS.Boolean true)); Select (JS.Prim JS.Null); Respond true].

End Methods.

(** A fresh button with server state 0, and its page once
    [selectState(true)] has put a request on the wire. *)
Definition freshButton : t := new "/toggle" 0 "state".

Definition busyPage : page :=
  mkPage (set_isRequestInProgress (set_selectedState freshButton 1) true)
         [mkRequest "POST" "/toggle" "json" (Some ("state", 1))]
         [Transmit (mkRequest "POST" "/toggle" "json" (Some ("state", 1)))].

(** A button with a request on the wire for state 1 whose host listens for
    the outcome of the request. *)
Definition watchedButton : t :=
  mk "/toggle" 0 1 "POST" "json" "state" true
     JS.CallbackNull JS.CallbackNull JS.CallbackFunction JS.CallbackFunction.

(** ** Counting and configuring *)

(** The host page sets [httpMethod] on the button it has built. *)
Definition set_httpMethod (b : t) (method : string) : t :=
  mk (uri b) (serverState b) (selectedState b) method (requestDataType b)
     (parameterName b) (isRequestInProgress b) (beforeSendCallback b)
     (completeCallback b) (successCallback b) (errorCallback b).

(** How many responses a list of events delivers. *)
Definition responses (es : list event) : nat :=
  List.length (filter (fun e => match e with
                                | Respond _ => true
                                | Select _ => false
                                end) es).

(** The button [b'] is configured as [b] is. *)
Definition sameConfiguration (b b' : t) : Prop :=
  uri b' = uri b /\ httpMethod b' = httpMethod b /\
  requestDataType b' = requestDataType b /\
  parameterName b' = parameterName b.

(** The request [r] is one of button [b]: its method, URI and data type,
    and, with the method [POST] (in any case of letters), the state 0 or 1
    under the button's parameter name; no data with any other method. *)
Definition requestOf (toUpperCase : string -> string) (b : t) (r : request)
  : Prop :=
  type r = httpMethod b /\ url r = uri b /\ dataType r = requestDataType b /\
  if String.eqb (toUpperCase (httpMethod b)) "POST"
  then data r = Some (parameterName b, 0) \/ data r = Some (parameterName b, 1)
  else data r = None.

End ToggleButton.

(* ===================================================================== *)
(** * src/js/widgets/GoogleMap.js *)
(* ===================================================================== *)

(** [google.maps.LatLng] (also the literal [{lat: lat, lng: lng}]). *)
Record LatLng : Type := mkLatLng { lat : JS.number; lng : JS.number }.

Module Geolocator.

(** Modelled from the spec: the [Geolocator] class is not among the source
    files.  The session keeps a nullable last accepted coordinate (the
    cached current position); [isCurrentPositionAvailable] tells whether
    one is cached and [clearCurrentPosition] forgets it.
    [permissionTimeout] is the wait, in milliseconds, the widget stores in
    it. *)
Record t : Type := mk {
  currentPosition : option LatLng;
  permissionTimeout : Z
}.

Definition new : t := mk None 0.

(** Modelled from the spec: [Geolocator.prototype.isCurrentPositionAvailable]
    (not among the source files) reports whether a previously cached
    coordinate exists. *)
Definition isCurrentPositionAvailable (g : t) : bool :=
  match currentPosition g with
  | Some _ => true
  | None => false
  end.

(** Modelled from the spec: [Geolocator.prototype.clearCurrentPosition]
    (not among the source files) forgets the cached coordinate. *)
Definition clearCurrentPosition (g : t) : t := mk None (permissionTimeout g).

End Geolocator.

Module GoogleMap.

Local Open Scope list_scope.

(** ** The rendering surface (the Google Maps objects the widget holds) *)

(** [google.maps.LatLngBounds], by its [contains] method. *)
Record LatLngBounds : Type := mkBounds { contains : LatLng -> bool }.

(** [google.maps.Map]: what the widget reads from it.  [getBounds()] is
    [undefined] (here [None]) as long as the map has not been laid out. *)
Record Map : Type := mkMap {
  getBounds : option LatLngBounds;
  getZoom : Z
}.

Inductive Animation : Type := BOUNCE | DROP.

(** [google.maps.Marker]; [attached] tells whether [setMap] last received
    the widget's map ([true]) or [null] ([false]). *)
Record Marker : Type := mkMarker {
  draggable : bool;
  animation : option Animation;
  attached : bool;
  position : option LatLng
}.

(** [google.maps.Circle] *)
Record Circle : Type := mkCircle {
  getVisible : bool;
  center : option LatLng
}.

(** ** The widget *)

Record t : Type := mk {
  geolocator : Geolocator.t;
  map : option Map;
  userMarker : option Marker;
  userLocationCircle : option Circle;
  onGeolocationRequestCallback : JS.callback;
  onGeolocationPermissionTimeoutCallback : JS.callback;
  onGeolocationSuccessCallback : JS.callback;
  onGeolocationErrorCallback : JS.callback;
  geolocatorWaitTimeout : Z;
  focusedZoomLevel : Z;
  minFocusedZoomLevel : Z
}.

Definition set_geolocator (this : t) (g : Geolocator.t) : t :=
  mk g (map this) (userMarker this) (userLocationCircle this)
     (onGeolocationRequestCallback this)
     (onGeolocationPermissionTimeoutCallback this)
     (onGeolocationSuccessCallback this) (onGeolocationErrorCallback this)
     (geolocatorWaitTimeout this) (focusedZoomLevel this)
     (minFocusedZoomLevel this).

Definition set_map (this : t) (m : option Map) : t :=
  mk (geolocator this) m (userMarker this) (userLocationCircle this)
     (onGeolocationRequestCallback this)
     (onGeolocationPermissionTimeoutCallback this)
     (onGeolocationSuccessCallback this) (onGeolocationErrorCallback this)
     (geolocatorWaitTimeout this) (focusedZoomLevel this)
     (minFocusedZoomLevel this).

Definition set_userMarker (this : t) (m : option Marker) : t :=
  mk (geolocator this) (map this) m (userLocationCircle this)
     (onGeolocationRequestCallback this)
     (onGeolocationPermissionTimeoutCallback this)
     (onGeolocationSuccessCallback this) (onGeolocationErrorCallback this)
     (geolocatorWaitTimeout this) (focusedZoomLevel this)
     (minFocusedZoomLevel this).

Definition set_userLocationCircle (this : t) (c : option Circle) : t :=
  mk (geolocator this) (map this) (userMarker this) c
     (onGeolocationRequestCallback this)
     (onGeolocationPermissionTimeoutCallback this)
     (onGeolocationSuccessCallback this) (onGeolocationErrorCallback this)
     (geolocatorWaitTimeout this) (focusedZoomLevel this)
     (minFocusedZoomLevel this).

(** ** Calls that leave the widget *)

(** A call on the rendering surface, on the geolocator or of a host
    callback.  Queries ([getBounds], [getZoom], [getVisible],
    [isCurrentPositionAvailable]) change nothing and are not recorded.  A
    host callback is recorded with its arguments; what the host page does
    in it is not the widget's. *)
Inductive call : Type :=
| Map_setZoom (zoom : Z)
| Map_panTo (c : LatLng)
| Marker_new
| Marker_setMap (toMap : bool)
| Marker_setAnimation (a : Animation)
| Marker_setPosition (c : LatLng)
| Circle_setVisible (v : bool)
| Circle_setCenter (c : LatLng)
| Geolocator_clearCurrentPosition
| RequestCallback
| PermissionTimeoutCallback (available : bool)
| SuccessCallback (lat lng : JS.number)
| ErrorCallback (errorMessage : string).

Inductive exception : Type := TypeError.

Inductive completion (A : Type) : Type :=
| Normal (a : A)
| Throw (e : exception).
Arguments Normal {A} a.
Arguments Throw {A} e.

(** How a method ends, the widget it leaves and the calls it made, oldest
    first. *)
Record outcome (A : Type) : Type := mkOutcome {
  result : completion A;
  final : t;
  calls : list call
}.
Arguments mkOutcome {A}.
Arguments result {A}.
Arguments final {A}.
Arguments calls {A}.

(** A method body: a function of [this]. *)
Definition js (A : Type) : Type := t -> outcome A.

Definition ret {A} (a : A) : js A := fun this => mkOutcome (Normal a) this [].

Definition bind {A B} (m : js A) (k : A -> js B) : js B :=
  fun this =>
    let r := m this in
    match result r with
    | Normal a =>
        let r' := k a (final r) in
        mkOutcome (result r') (final r') (calls r ++ calls r')
    | Throw e => mkOutcome (Throw e) (final r) (calls r)
    end.

Definition throw {A} (e : exception) : js A :=
  fun this => mkOutcome (Throw e) this [].

Definition emit (c : call) : js unit :=
  fun this => mkOutcome (Normal tt) this [c].

Definition read : js t := fun this => mkOutcome (Normal this) this [].

Definition write (this' : t) : js unit :=
  fun _ => mkOutcome (Normal tt) this' [].

Notation "x <- m ;; k" := (bind m (fun x => k))
  (at level 61, m at next level, right associativity).
Notation "m ;; k" := (bind m (fun _ => k))
  (at level 61, right associativity).

Definition when (b : bool) (m : js unit) : js unit :=
  if b then m else ret tt.

(** [if ($.isFunction(cb)) { cb(...) }] *)
Definition notify (cb : JS.callback) (c : call) : js unit :=
  when (JS.isFunction cb) (emit c).

(** ** Guards *)

(** [x == null] on a property that holds [null] or an object. *)
Definition isNull {A} (x : option A) : bool :=
  match x with
  | None => true
  | Some _ => false
  end.

(** [!x]: an object is truthy, [null] is not. *)
Definition logicalNot {A} (x : option A) : bool := isNull x.

(** [b instanceof C] where [b] is a boolean: a primitive is an instance of
    nothing. *)
Definition booleanInstanceof (b : bool) : bool := false.

(** [this.map == null || !this.map instanceof google.maps.Map]; the unary
    [!] binds tighter than [instanceof]. *)
Definition mapGuard (this : t) : bool :=
  isNull (map this) || booleanInstanceof (logicalNot (map this)).

(** ** Method calls on the objects the widget holds

    A method call on a property that is [null] or [undefined] raises a
    [TypeError]. *)

Definition theMap : js Map :=
  this <- read ;;
  match map this with
  | Some m => ret m
  | None => throw TypeError
  end.

Definition theMarker : js Marker :=
  this <- read ;;
  match userMarker this with
  | Some m => ret m
  | None => throw TypeError
  end.

Definition theCircle : js Circle :=
  this <- read ;;
  match userLocationCircle this with
  | Some c => ret c
  | None => throw TypeError
  end.

(** [this.map.setZoom(zoom)] *)
Definition map_setZoom (zoom : Z) : js unit :=
  m <- theMap ;;
  this <- read ;;
  write (set_map this (Some (mkMap (getBounds m) zoom))) ;;
  emit (Map_setZoom zoom).

(** [this.map.panTo(c)]: the surface moves its viewport on its own time;
    the widget only issues the call. *)
Definition map_panTo (c : LatLng) : js unit :=
  _ <- theMap ;;
  emit (Map_panTo c).

(** [this.map.getBounds().contains(c)] *)
Definition map_getBounds_contains (c : LatLng) : js bool :=
  m <- theMap ;;
  match getBounds m with
  | Some bounds => ret (contains bounds c)
  | None => throw TypeError
  end.

(** [this.userMarker = new google.maps.Marker(this.userMarkerOptions)],
    the options being [{draggable: false, animation: DROP}]. *)
Definition newUserMarker : js unit :=
  this <- read ;;
  write (set_userMarker this (Some (mkMarker false (Some DROP) false None))) ;;
  emit Marker_new.

(** [this.userMarker.setMap(target)] *)
Definition marker_setMap (target : option Map) : js unit :=
  m <- theMarker ;;
  this <- read ;;
  write (set_userMarker this
           (Some (mkMarker (draggable m) (animation m)
                           (negb (isNull target)) (position m)))) ;;
  emit (Marker_setMap (negb (isNull target))).

Definition marker_setAnimation (a : Animation) : js unit :=
  m <- theMarker ;;
  this <- read ;;
  write (set_userMarker this
           (Some (mkMarker (draggable m) (Some a) (attached m) (position m)))) ;;
  emit (Marker_setAnimation a).

Definition marker_setPosition (c : LatLng) : js unit :=
  m <- theMarker ;;
  this <- read ;;
  write (set_userMarker this
           (Some (mkMarker (draggable m) (animation m) (attached m) (Some c)))) ;;
  emit (Marker_setPosition c).

Definition circle_setVisible (v : bool) : js unit :=
  c <- theCircle ;;
  this <- read ;;
  write (set_userLocationCircle this (Some (mkCircle v (center c)))) ;;
  emit (Circle_setVisible v).

Definition circle_setCenter (p : LatLng) : js unit :=
  c <- theCircle ;;
  this <- read ;;
  write (set_userLocationCircle this (Some (mkCircle (getVisible c) (Some p)))) ;;
  emit (Circle_setCenter p).

(** [this.geolocator.clearCurrentPosition()] *)
Definition geolocator_clearCurrentPosition : js unit :=
  this <- read ;;
  write (set_geolocator this
           (Geolocator.clearCurrentPosition (geolocator this))) ;;
  emit Geolocator_clearCurrentPosition.

(** ** The methods of [GoogleMap.prototype] *)

(** [initializeGeolocator]: a fresh geolocator with the widget's wait; the
    four handlers below are bound to it as its callbacks. *)
Definition initializeGeolocator : js unit :=
  this <- read ;;
  write (set_geolocator this
           (Geolocator.mk (Geolocator.currentPosition Geolocator.new)
                          (geolocatorWaitTimeout this))).

(** The prototype's defaults. *)
Definition prototype : t :=
  mk Geolocator.new None None None
     JS.CallbackNull JS.CallbackNull JS.CallbackNull JS.CallbackNull
     3000 15 5.

(** [new GoogleMap()] *)
Definition new : t := final (initializeGeolocator prototype).

(** [initializeMap(mapElement)]: a new map built from [mapOptions]
    ([zoom: 2]); it has no bounds before the surface has laid it out. *)
Definition initializeMap : js unit :=
  this <- read ;;
  write (set_map this (Some (mkMap None 2))).

(** [initializeUserLocationCircle(options)]; [visible] is the options'
    ([true] when they do not say). *)
Definition initializeUserLocationCircle (visible : bool)
                                        (center : option LatLng) : js unit :=
  this <- read ;;
  write (set_userLocationCircle this (Some (mkCircle visible center))).

Definition removeUserPosition : js unit :=
  this <- read ;;
  when (negb (isNull (userMarker this)))
       (marker_setMap None).

Definition setUserMarker (lat lng : JS.number) : js unit :=
  this <- read ;;
  if mapGuard this then ret tt
  else
    when (isNull (userMarker this)) newUserMarker ;;
    this <- read ;;
    marker_setMap (map this) ;;
    marker_setAnimation DROP ;;
    marker_setPosition (mkLatLng lat lng).

Definition setUserLocationCirclePosition (lat lng : JS.number) : js unit :=
  this <- read ;;
  when (negb (isNull (userLocationCircle this)))
       (c <- theCircle ;;
        when (negb (getVisible c)) (circle_setVisible true) ;;
        circle_setCenter (mkLatLng lat lng)).

Definition hideUserLocationCircle : js unit :=
  this <- read ;;
  when (negb (isNull (userLocationCircle this)))
       (c <- theCircle ;;
        when (getVisible c) (circle_setVisible false)).

Definition centerMap (lat lng : JS.number) : js unit :=
  this <- read ;;
  if mapGuard this then ret tt
  else map_panTo (mkLatLng lat lng).

Definition zoomMap (zoom : Z) : js unit :=
  this <- read ;;
  if mapGuard this then ret tt
  else map_setZoom zoom.

Definition focusOnLocation (lat lng : JS.number) : js unit :=
  this <- read ;;
  if mapGuard this then ret tt
  else
    inside <- map_getBounds_contains (mkLatLng lat lng) ;;
    m <- theMap ;;
    if negb inside || (getZoom m <? minFocusedZoomLevel this)
    then zoomMap (focusedZoomLevel this) ;; centerMap lat lng
    else ret tt.

Definition onGeolocationSuccess (lat lng : JS.number) : js unit :=
  this <- read ;;
  notify (onGeolocationSuccessCallback this) (SuccessCallback lat lng) ;;
  focusOnLocation lat lng ;;
  setUserMarker lat lng ;;
  setUserLocationCirclePosition lat lng.

Definition onGeolocationPermissionTimeout : js unit :=
  this <- read ;;
  notify (onGeolocationPermissionTimeoutCallback this)
         (PermissionTimeoutCallback
            (Geolocator.isCurrentPositionAvailable (geolocator this))).

Definition onGeolocationRequest : js unit :=
  geolocator_clearCurrentPosition ;;
  removeUserPosition ;;
  hideUserLocationCircle ;;
  this <- read ;;
  notify (onGeolocationRequestCallback this) RequestCallback.

Definition onGeolocationError (errorMessage : string) : js unit :=
  this <- read ;;
  notify (onGeolocationErrorCallback this) (ErrorCallback errorMessage).

(** ** Reading a list of calls *)

Definition isCameraCall (c : call) : bool :=
  match c with
  | Map_setZoom _ | Map_panTo _ => true
  | _ => false
  end.

Definition isMarkerCall (c : call) : bool :=
  match c with
  | Marker_new | Marker_setMap _ | Marker_setAnimation _
  | Marker_setPosition _ => true
  | _ => false
  end.

Definition isCircleCall (c : call) : bool :=
  match c with
  | Circle_setVisible _ | Circle_setCenter _ => true
  | _ => false
  end.

(** A call that changes what the rendering surface shows. *)
Definition isSurfaceCall (c : call) : bool :=
  isCameraCall c || isMarkerCall c || isCircleCall c.

(** ** Widgets and orders of calls the properties below speak of *)

(** The map has been initialized and the surface reports its viewport. *)
Definition laidOut (bounds : LatLngBounds) (zoom : Z) (this : t) : t :=
  set_map this (Some (mkMap (Some bounds) zoom)).

(** A widget whose host page has set all four callbacks. *)
Definition withCallbacks (this : t) : t :=
  mk (geolocator this) (map this) (userMarker this) (userLocationCircle this)
     JS.CallbackFunction JS.CallbackFunction JS.CallbackFunction
     JS.CallbackFunction
     (geolocatorWaitTimeout this) (focusedZoomLevel this)
     (minFocusedZoomLevel this).

(** A viewport that shows the whole world, and one that shows none of the
    places asked about. *)
Definition wholeWorld : LatLngBounds := mkBounds (fun _ => true).
Definition elsewhere : LatLngBounds := mkBounds (fun _ => false).

(** The host page of the specification's scenario: callbacks set, map laid
    out at zoom 2 away from the user, circle created hidden. *)
Definition scenario : t :=
  set_userLocationCircle (laidOut elsewhere 2 (withCallbacks new))
                         (Some (mkCircle false None)).

(** The widget right after [initializeMap], before the surface has laid the
    map out. *)
Definition justInitialized : t := final (initializeMap (withCallbacks new)).

(** A scenario widget whose geolocator holds a cached position. *)
Definition withCachedPosition (c : LatLng) (this : t) : t :=
  set_geolocator this
    (Geolocator.mk (Some c) (Geolocator.permissionTimeout (geolocator this))).

(** New York, the coordinate of the scenario. *)
Definition newYork : LatLng := mkLatLng (JS.ofZ 40) (JS.ofZ (-74)).

(** The scenario widget after a successful fix on New York. *)
Definition tracked : t :=
  final (onGeolocationSuccess (lat newYork) (lng newYork) scenario).



(** The handler can finish: no map yet, or a map that reports its bounds. *)
Definition boundsKnown (this : t) : Prop :=
  match map this with
  | Some m => getBounds m <> None
  | None => True
  end.

(** The focus rule: the place is outside the viewport or the map is zoomed
    out below [minFocusedZoomLevel]. *)
Definition needsFocus (this : t) (m : Map) (bounds : LatLngBounds)
                      (c : LatLng) : Prop :=
  contains bounds c = false \/ getZoom m < minFocusedZoomLevel this.

(** ** The widget over the turns of the event loop *)

(** What can happen to the widget between two of its own actions.  The
    first four are the geolocator calling the handlers that
    [initializeGeolocator] bound to it; [MapInitialized] is the host calling
    [initializeMap]; [ViewportChanged] is the surface laying the map out or
    the user moving it; [GeolocatorChanged] is the geolocator caching or
    forgetting a position on its own account. *)
Inductive event : Type :=
| RequestMade
| PositionUpdate (lat lng : JS.number)
| PermissionTimeout
| PositionError (errorMessage : string)
| MapInitialized
| ViewportChanged (bounds : LatLngBounds) (zoom : Z)
| GeolocatorChanged (position : option LatLng).

Definition viewportChanged (bounds : LatLngBounds) (zoom : Z) : js unit :=
  this <- read ;;
  when (negb (isNull (map this))) (write (laidOut bounds zoom this)).

Definition geolocatorChanged (position : option LatLng) : js unit :=
  this <- read ;;
  write (set_geolocator this
           (Geolocator.mk position
              (Geolocator.permissionTimeout (geolocator this)))).

Definition dispatch (e : event) : js unit :=
  match e with
  | RequestMade => onGeolocationRequest
  | PositionUpdate lat lng => onGeolocationSuccess lat lng
  | PermissionTimeout => onGeolocationPermissionTimeout
  | PositionError errorMessage => onGeolocationError errorMessage
  | MapInitialized => initializeMap
  | ViewportChanged bounds zoom => viewportChanged bounds zoom
  | GeolocatorChanged position => geolocatorChanged position
  end.

(** The turns of the event loop, one per event: an exception ends the turn
    it is raised in, and what that turn had written stays written.  The
    result is the widget at the end and every call made, oldest first. *)
Fixpoint turns (es : list event) (this : t) : t * list call :=
  match es with
  | [] => (this, [])
  | e :: es' =>
      let r := dispatch e this in
      let '(this', cs) := turns es' (final r) in
      (this', calls r ++ cs)
  end.

Definition isPositionUpdate (e : event) : bool :=
  match e with
  | PositionUpdate _ _ => true
  | _ => false
  end.

(** How many markers a list of calls constructs. *)
Definition markersCreated (cs : list call) : nat :=
  List.length (filter (fun c => match c with
                                | Marker_new => true
                                | _ => false
                                end) cs).

(** The marker as [setMap(null)] leaves it, and as [setUserMarker] leaves
    the marker it found ([None]: it made a new one). *)
Definition detached (mk : Marker) : Marker :=
  mkMarker (draggable mk) (animation mk) false (position mk).

Definition placed (c : LatLng) (found : option Marker) : Marker :=
  mkMarker (match found with
            | Some marker => draggable marker
            | None => false
            end)
           (Some DROP) true (Some c).

(** The circle as [hideUserLocationCircle] and as
    [setUserLocationCirclePosition] leave it. *)
Definition hidden (c : Circle) : Circle := mkCircle false (center c).

Definition shown (p : LatLng) : Circle := mkCircle true (Some p).

(** The user marker, when there is one, has a position, and it is on a map
    only if the widget has one. *)
Definition markerWellFormed (this : t) : Prop :=
  forall mk, userMarker this = Some mk ->
    position mk <> None /\
    (attached mk = true -> map this <> None).

(** Nothing of the user's position is shown: the marker, if any, is off the
    map and the circle, if any, is hidden. *)
Definition cleared (this : t) : Prop :=
  (forall mk, userMarker this = Some mk -> attached mk = false) /\
  (forall c, userLocationCircle this = Some c -> getVisible c = false).

(** What one turn does to the marker, the circle and the map.  Either the
    turn is a position update that went through on a map, and the marker is
    placed and the circle (if any) shown at the coordinate; or it is a
    request, and the marker is detached and the circle hidden; or marker
    and circle are as before, except that a position update without a map
    shows the circle. *)
Inductive turnKind (e : event) (this : t) : Prop :=
| Fixed (lat lng : JS.number) :
    e = PositionUpdate lat lng ->
    isNull (map this) = false ->
    isNull (map (final (dispatch e this))) = false ->
    userMarker (final (dispatch e this)) =
      Some (placed (mkLatLng lat lng) (userMarker this)) ->
    userLocationCircle (final (dispatch e this)) =
      option_map (fun _ => shown (mkLatLng lat lng))
                 (userLocationCircle this) ->
    markersCreated (calls (dispatch e this)) =
      (if isNull (userMarker this) then 1 else 0)%nat ->
    (userLocationCircle this = None ->
     filter isCircleCall (calls (dispatch e this)) = []) ->
    turnKind e this
| Requested :
    e = RequestMade ->
    map (final (dispatch e this)) = map this ->
    userMarker (final (dispatch e this)) =
      option_map detached (userMarker this) ->
    userLocationCircle (final (dispatch e this)) =
      option_map hidden (userLocationCircle this) ->
    markersCreated (calls (dispatch e this)) = 0%nat ->
    filter isCameraCall (calls (dispatch e this)) = [] ->
    (userLocationCircle this = None ->
     filter isCircleCall (calls (dispatch e this)) = []) ->
    turnKind e this
| CircleOnly (lat lng : JS.number) :
    e = PositionUpdate lat lng ->
    map this = None ->
    map (final (dispatch e this)) = None ->
    userMarker (final (dispatch e this)) = userMarker this ->
    userLocationCircle (final (dispatch e this)) =
      option_map (fun _ => shown (mkLatLng lat lng))
                 (userLocationCircle this) ->
    markersCreated (calls (dispatch e this)) = 0%nat ->
    (userLocationCircle this = None ->
     filter isCircleCall (calls (dispatch e this)) = []) ->
    turnKind e this
| Untouched :
    (isNull (map this) = false ->
     isNull (map (final (dispatch e this))) = false) ->
    userMarker (final (dispatch e this)) = userMarker this ->
    userLocationCircle (final (dispatch e this)) = userLocationCircle this ->
    markersCreated (calls (dispatch e this)) = 0%nat ->
    filter isCircleCall (calls (dispatch e this)) = [] ->
    (isPositionUpdate e = false ->
     filter isCameraCall (calls (dispatch e this)) = []) ->
    turnKind e this.

(** A visible circle around a marker on the map is centered on it. *)
Definition circleOnMarker (this : t) : Prop :=
  forall mk c,
    userMarker this = Some mk -> attached mk = true ->
    userLocationCircle this = Some c -> getVisible c = true ->
    center c = position mk.

End GoogleMap.

(* ===================================================================== *)
(** * Properties of the query-string builder *)
(* ===================================================================== *)

Module QueryStringProofs.

Import HttpQueryStringBuilder.

Lemma append_assoc (a b c : string) : (a ++ b) ++ c = a ++ (b ++ c).
Proof.
  induction a as [|ch a IH]; simpl; [reflexivity | now rewrite IH].
Qed.

Lemma append_empty_r (a : string) : a ++ "" = a.
Proof.
  induction a as [|ch a IH]; simpl; [reflexivity | now rewrite IH].
Qed.

(** In a well-formed collection every stored pair is found under its key. *)
Lemma stored_pair_found (l : list (string * string)) (k v : string) :
  NoDup (map fst l) -> In (k, v) l ->
  Collection.hasKey (Collection.mk l) k = true /\
  Collection.get (Collection.mk l) k = Some v.
Proof.
  unfold Collection.hasKey, Collection.get; simpl.
  induction l as [|[k' v'] l IH]; simpl; intros ND HIn; [contradiction|].
  inversion ND as [|? ? Hnotin ND']; subst.
  destruct HIn as [Heq | HIn].
  - inversion Heq; subst. rewrite String.eqb_refl. simpl. split; reflexivity.
  - destruct (String.eqb_spec k' k) as [->|Hne].
    + exfalso. apply Hnotin. change k with (fst (k, v)). now apply in_map.
    + simpl. now apply IH.
Qed.

(** The builder's own operations keep the collection well formed. *)
Lemma assign_keys_in (l : list (string * string)) (key val x : string) :
  In x (map fst (Collection.assign l key val)) ->
  x = key \/ In x (map fst l).
Proof.
  induction l as [|[k v] l IH]; simpl.
  - intros [H | []]. now left.
  - destruct (String.eqb_spec k key) as [->|Hne]; simpl.
    + intros [H | H]; [right; now left | right; now right].
    + intros [H | H]; [right; now left |].
      destruct (IH H) as [Hk | Hin]; [now left | right; now right].
Qed.

Lemma empty_wellFormed : Collection.wellFormed Collection.empty.
Proof. constructor. Qed.

Lemma add_wellFormed (c : Collection.t) (key val : string) :
  Collection.wellFormed c -> Collection.wellFormed (Collection.add c key val).
Proof.
  destruct c as [l]. unfold Collection.wellFormed, Collection.forIn; simpl.
  induction l as [|[k v] l IH]; simpl; intros ND.
  - constructor; [intros [] | constructor].
  - inversion ND as [|? ? Hnotin ND']; subst.
    destruct (String.eqb_spec k key) as [->|Hne]; simpl.
    + now constructor.
    + constructor; [|now apply IH].
      intros Hin. destruct (assign_keys_in _ _ _ _ Hin) as [Hk | Hl];
        [now apply Hne | now apply Hnotin].
Qed.

Lemma remove_wellFormed (c : Collection.t) (key : string) :
  Collection.wellFormed c -> Collection.wellFormed (Collection.remove c key).
Proof.
  destruct c as [l]. unfold Collection.wellFormed, Collection.forIn; simpl.
  induction l as [|[k v] l IH]; simpl; intros ND; [constructor|].
  inversion ND as [|? ? Hnotin ND']; subst.
  destruct (negb (String.eqb k key)); simpl; [|now apply IH].
  constructor; [|now apply IH].
  intros Hin. apply Hnotin. apply in_map_iff in Hin.
  destruct Hin as ([k' v'] & Hk & Hin). apply filter_In in Hin.
  simpl in Hk; subst. apply in_map_iff. exists (k, v'). now split.
Qed.

Lemma append_cancel (a x y : string) : a ++ x = a ++ y -> x = y.
Proof.
  induction a as [|ch a IH]; simpl; intros H; [exact H|].
  injection H as H. now apply IH.
Qed.

Lemma append_is_empty (a b : string) : a ++ b = "" -> a = "" /\ b = "".
Proof. destruct a; simpl; [now split | discriminate]. Qed.

(** Comparing two integers as numbers is comparing them as integers. *)
Lemma number_lt_ofZ (a b : Z) :
  JS.number_lt (JS.ofZ a) (JS.ofZ b) = (a <? b).
Proof.
  unfold JS.number_lt, JS.ofZ, Qle_bool, inject_Z; simpl.
  rewrite !Z.mul_1_r. symmetry. apply Z.ltb_antisym.
Qed.

Section Builder.

Variable StringToNumber : string -> JS.number.
Variable plusOne : JS.number -> JS.number.
Variable minusOne : JS.number -> JS.number.
Variable numberToString : JS.number -> string.
Variable encodeURIComponent : string -> string.

Local Abbreviation buildQueryString :=
  (HttpQueryStringBuilder.buildQueryString
     StringToNumber numberToString encodeURIComponent).
Local Abbreviation queryStringSpec :=
  (HttpQueryStringBuilder.queryStringSpec
     StringToNumber numberToString encodeURIComponent).
Local Abbreviation appendParameter :=
  (HttpQueryStringBuilder.appendParameter StringToNumber encodeURIComponent).
Local Abbreviation keyValue :=
  (HttpQueryStringBuilder.keyValue encodeURIComponent).
Local Abbreviation joined := (HttpQueryStringBuilder.joined encodeURIComponent).
Local Abbreviation sendRequest :=
  (HttpQueryStringBuilder.sendRequest
     StringToNumber numberToString encodeURIComponent).
Local Abbreviation incrementPage :=
  (HttpQueryStringBuilder.incrementPage StringToNumber plusOne).
Local Abbreviation decrementPage :=
  (HttpQueryStringBuilder.decrementPage StringToNumber minusOne).
Local Abbreviation movePage :=
  (HttpQueryStringBuilder.movePage StringToNumber plusOne minusOne).
Local Abbreviation movePages :=
  (HttpQueryStringBuilder.movePages StringToNumber plusOne minusOne).

(** One turn of the loop on a stored pair. *)
Lemma appendParameter_stored (b : t) (kv : string * string) (acc : string)
      (i : Z) :
  Collection.storedIn (queryParameters b) kv ->
  appendParameter b (acc, i) (fst kv) =
  (acc ++ (if (i =? 0) && JS.lessThan StringToNumber (page b) (JS.ofZ 1)
           then "?" else "&")
       ++ keyValue kv,
   i + 1).
Proof.
  intros [Hhas Hget].
  unfold HttpQueryStringBuilder.appendParameter,
    HttpQueryStringBuilder.keyValue.
  rewrite Hhas, Hget. simpl toStringOfGet.
  destruct ((i =? 0) && _); now rewrite !append_assoc.
Qed.

(** Past the first appended pair the loop only ever writes ["&"]. *)
Lemma loop_after_first (b : t) (suf : list (string * string)) :
  forall (acc : string) (i : Z),
    0 < i ->
    (forall kv, In kv suf -> Collection.storedIn (queryParameters b) kv) ->
    fst (fold_left (appendParameter b) (map fst suf) (acc, i)) =
    acc ++ concatAll (map (fun kv => "&" ++ keyValue kv) suf).
Proof.
  induction suf as [|kv suf IH]; intros acc i Hi Hall.
  - simpl. now rewrite append_empty_r.
  - cbn [map fold_left].
    rewrite appendParameter_stored by (apply Hall; now left).
    replace (i =? 0) with false by (symmetry; apply Z.eqb_neq; lia).
    rewrite IH; [| lia | intros kv' H; apply Hall; now right].
    cbn [andb map concatAll fold_right]. now rewrite !append_assoc.
Qed.

Lemma loop_from_start (b : t) (kvs : list (string * string)) (acc : string) :
  (forall kv, In kv kvs -> Collection.storedIn (queryParameters b) kv) ->
  fst (fold_left (appendParameter b) (map fst kvs) (acc, 0)) =
  acc ++ joined (JS.lessThan StringToNumber (page b) (JS.ofZ 1)) kvs.
Proof.
  destruct kvs as [|kv kvs]; intros Hall.
  - simpl. now rewrite append_empty_r.
  - cbn [map fold_left HttpQueryStringBuilder.joined].
    rewrite appendParameter_stored by (apply Hall; now left).
    rewrite loop_after_first; [| lia | intros kv' H; apply Hall; now right].
    change (0 =? 0) with true. cbn [andb].
    now rewrite !append_assoc.
Qed.

(** What [buildQueryString] returns on a well-formed collection, with the
    two tests the code makes on the page. *)
Lemma buildQueryString_returns (b : t) :
  Collection.wellFormed (queryParameters b) ->
  buildQueryString b =
  (if JS.greaterThan StringToNumber (page b) (JS.ofZ 0)
   then "?page=" ++ JS.ToString numberToString (page b) else "")
  ++ joined (JS.lessThan StringToNumber (page b) (JS.ofZ 1))
            (Collection.objects (queryParameters b)).
Proof.
  intros WF.
  assert (Hall : forall kv, In kv (Collection.objects (queryParameters b)) ->
                            Collection.storedIn (queryParameters b) kv).
  { intros [k v] HIn. unfold Collection.storedIn.
    destruct (queryParameters b) as [l]. now apply stored_pair_found. }
  unfold HttpQueryStringBuilder.buildQueryString, Collection.forIn.
  now rewrite loop_from_start.
Qed.

(** On an integer page the two tests agree. *)
Lemma integer_page_tests (b : t) (n : Z) :
  page b = JS.Number (JS.ofZ n) ->
  JS.greaterThan StringToNumber (page b) (JS.ofZ 0) = (0 <? n) /\
  JS.lessThan StringToNumber (page b) (JS.ofZ 1) = negb (0 <? n) /\
  JS.greaterThan StringToNumber (page b) (JS.ofZ 1) = (1 <? n).
Proof.
  intros Hp. unfold JS.greaterThan, JS.lessThan. rewrite Hp. simpl JS.ToNumber.
  rewrite !number_lt_ofZ. repeat split.
  destruct (Z.ltb_spec n 1), (Z.ltb_spec 0 n); simpl; reflexivity || lia.
Qed.

(** X19. On an integer page and a well-formed collection
    [buildQueryString] returns the page part followed by the parameters part: the page part is
    ["?page=N"] when the page is greater than 0 and empty when it is 0 or
    less; the parameters part holds every stored parameter, in the
    collection's order, as
    [encodeURIComponent(key) = encodeURIComponent(value)], the first pair
    after ["?"] when the page part is empty and after ["&"] otherwise,
    every later pair after ["&"]. *)
Lemma buildQueryString_spec (b : t) (n : Z) :
  page b = JS.Number (JS.ofZ n) ->
  Collection.wellFormed (queryParameters b) ->
  buildQueryString b = queryStringSpec b
  /\ (0 < n ->
      buildQueryString b =
      "?page=" ++ numberToString (JS.ofZ n) ++
      concatAll (map (fun kv => "&" ++ keyValue kv)
                     (Collection.objects (queryParameters b))))
  /\ (n <= 0 ->
      buildQueryString b =
      match Collection.objects (queryParameters b) with
      | [] => ""
      | kv :: rest =>
          "?" ++ keyValue kv ++
          concatAll (map (fun kv' => "&" ++ keyValue kv') rest)
      end).
Proof.
  intros Hp WF.
  destruct (integer_page_tests b n Hp) as (Hgt & Hlt & _).
  pose proof (buildQueryString_returns b WF) as Hret.
  unfold HttpQueryStringBuilder.queryStringSpec,
    HttpQueryStringBuilder.pagePart.
  rewrite Hret, Hgt, Hlt. rewrite Hp. simpl JS.ToString.
  split; [reflexivity|]. split; intros Hn.
  - replace (0 <? n) with true by (symmetry; apply Z.ltb_lt; lia).
    simpl negb. unfold HttpQueryStringBuilder.joined.
    destruct (Collection.objects (queryParameters b)) as [|kv rest].
    + simpl. now rewrite !append_empty_r.
    + cbn [map concatAll fold_right]. now rewrite !append_assoc.
  - replace (0 <? n) with false by (symmetry; apply Z.ltb_ge; lia).
    reflexivity.
Qed.

(** C9 at its failing inputs.  With one parameter stored and a page of one
    half, [page > 0] holds and [page < 1] holds too: the page parameter is
    written and the first pair still comes after ["?"], not after ["&"] as
    the specification words it.  With a page that is [NaN] neither test
    holds: no page parameter is written and the first pair comes after
    ["&"], not after ["?"]. *)
Theorem buildQueryString_page_tests_disagree :
  buildQueryString halfPage =
    "?page=" ++ numberToString (JS.Finite (1 # 2)) ++
    "?" ++ encodeURIComponent "q" ++ "=" ++ encodeURIComponent "a" /\
  queryStringSpec halfPage =
    "?page=" ++ numberToString (JS.Finite (1 # 2)) ++
    "&" ++ encodeURIComponent "q" ++ "=" ++ encodeURIComponent "a" /\
  buildQueryString halfPage <> queryStringSpec halfPage /\
  buildQueryString nanPage =
    "&" ++ encodeURIComponent "q" ++ "=" ++ encodeURIComponent "a" /\
  queryStringSpec nanPage =
    "?" ++ encodeURIComponent "q" ++ "=" ++ encodeURIComponent "a" /\
  buildQueryString nanPage <> queryStringSpec nanPage.
Proof.
  assert (Hcode : buildQueryString halfPage =
            "?page=" ++ numberToString (JS.Finite (1 # 2)) ++
            "?" ++ encodeURIComponent "q" ++ "=" ++ encodeURIComponent "a").
  { unfold HttpQueryStringBuilder.buildQueryString, halfPage; simpl.
    rewrite ?append_assoc, ?append_empty_r; reflexivity. }
  assert (Hspec : queryStringSpec halfPage =
            "?page=" ++ numberToString (JS.Finite (1 # 2)) ++
            "&" ++ encodeURIComponent "q" ++ "=" ++ encodeURIComponent "a").
  { unfold HttpQueryStringBuilder.queryStringSpec, halfPage,
      HttpQueryStringBuilder.keyValue; simpl.
    rewrite ?append_assoc, ?append_empty_r; reflexivity. }
  assert (Hcode' : buildQueryString nanPage =
            "&" ++ encodeURIComponent "q" ++ "=" ++ encodeURIComponent "a").
  { unfold HttpQueryStringBuilder.buildQueryString, nanPage; simpl.
    reflexivity. }
  assert (Hspec' : queryStringSpec nanPage =
            "?" ++ encodeURIComponent "q" ++ "=" ++ encodeURIComponent "a").
  { unfold HttpQueryStringBuilder.queryStringSpec, nanPage,
      HttpQueryStringBuilder.keyValue; simpl.
    rewrite ?append_assoc, ?append_empty_r; reflexivity. }
  repeat split; try assumption.
  - rewrite Hcode, Hspec. intros H.
    apply (append_cancel "?page=") in H. apply append_cancel in H.
    discriminate H.
  - rewrite Hcode', Hspec'. discriminate.
Qed.

(** X3. For an integer page and a well-formed collection the query string
    is empty exactly when the page is 0 or less and no parameter is stored;
    in every other case it begins with ["?"]. *)
Theorem buildQueryString_empty_or_question_mark (b : t) (n : Z) :
  page b = JS.Number (JS.ofZ n) ->
  Collection.wellFormed (queryParameters b) ->
  (buildQueryString b = "" <->
   n <= 0 /\ Collection.objects (queryParameters b) = []) /\
  (buildQueryString b <> "" ->
   exists rest, buildQueryString b = "?" ++ rest).
Proof.
  intros Hp WF.
  destruct (integer_page_tests b n Hp) as (Hgt & Hlt & _).
  rewrite (buildQueryString_returns b WF), Hgt, Hlt. clear Hgt Hlt WF.
  destruct (Z.ltb_spec 0 n) as [Hpos | Hnonpos]; simpl negb.
  - split.
    + split; [simpl; discriminate | intros [Hn _]; lia].
    + intros _. simpl. eexists. reflexivity.
  - unfold HttpQueryStringBuilder.joined.
    destruct (Collection.objects (queryParameters b)) as [|kv rest].
    + split; [split; [now split | reflexivity] | intros H; now elim H].
    + split.
      * split; [simpl; discriminate | intros [_ Hnil]; discriminate].
      * intros _. simpl. eexists. reflexivity.
Qed.

(** X4. [sendRequest] asks for the base URI followed by the query string,
    with [GET].  After [resetQueryParams] that is the base URI followed by
    ["?page=1"], whatever the page and the parameters were before: the reset
    goes to page 1, not back to the constructor's page 0.  With a page that
    is not greater than 0 (the constructor's 0, a negative page, [null])
    and no parameter, the bare base URI is asked for. *)
Theorem sendRequest_after_reset (b : t) :
  sendRequest (resetQueryParams b) =
    mkRequest "GET" (baseUri b ++ "?page=" ++ numberToString (JS.ofZ 1)) /\
  (JS.greaterThan StringToNumber (page b) (JS.ofZ 0) = false ->
   Collection.objects (queryParameters b) = [] ->
   sendRequest b = mkRequest "GET" (baseUri b)) /\
  (forall n, page b = JS.Number (JS.ofZ n) -> n <= 0 ->
   Collection.objects (queryParameters b) = [] ->
   sendRequest b = mkRequest "GET" (baseUri b)).
Proof.
  assert (Hbare : JS.greaterThan StringToNumber (page b) (JS.ofZ 0) = false ->
                  Collection.objects (queryParameters b) = [] ->
                  sendRequest b = mkRequest "GET" (baseUri b)).
  { intros Hp Hnil.
    unfold HttpQueryStringBuilder.sendRequest,
      HttpQueryStringBuilder.buildQueryString, Collection.forIn.
    rewrite Hnil, Hp. simpl. now rewrite append_empty_r. }
  split; [|split].
  - unfold HttpQueryStringBuilder.sendRequest,
      HttpQueryStringBuilder.buildQueryString; simpl. reflexivity.
  - exact Hbare.
  - intros n Hp Hn. apply Hbare.
    destruct (integer_page_tests b n Hp) as (Hgt & _). rewrite Hgt.
    apply Z.ltb_ge. lia.
Qed.

(** ** Paging *)

(** The engine's [x + 1] and [x - 1] are exact where the result is an
    integer that a double holds. *)
Hypothesis plusOne_exact :
  forall z, - 2 ^ 53 <= z < 2 ^ 53 -> plusOne (JS.ofZ z) = JS.ofZ (z + 1).
Hypothesis minusOne_exact :
  forall z, - 2 ^ 53 < z <= 2 ^ 53 -> minusOne (JS.ofZ z) = JS.ofZ (z - 1).

Lemma movePage_range (b : t) (m : pageMove) (n : Z) :
  page b = JS.Number (JS.ofZ n) ->
  safeInteger n ->
  exists n',
    page (movePage b m) = JS.Number (JS.ofZ n') /\
    Z.min 1 n <= n' <= Z.max 1 n + 1 /\
    queryParameters (movePage b m) = queryParameters b /\
    baseUri (movePage b m) = baseUri b.
Proof.
  unfold safeInteger. intros Hp Hsafe.
  destruct (integer_page_tests b n Hp) as (_ & _ & Hgt1).
  destruct m; simpl.
  - exists (n + 1). unfold HttpQueryStringBuilder.incrementPage; simpl.
    rewrite Hp. simpl JS.ToNumber. rewrite plusOne_exact by lia.
    repeat split; lia.
  - unfold HttpQueryStringBuilder.decrementPage. rewrite Hgt1.
    destruct (Z.ltb_spec 1 n); simpl.
    + exists (n - 1). rewrite Hp. simpl JS.ToNumber.
      rewrite minusOne_exact by lia. repeat split; lia.
    + exists n. repeat split; try assumption; lia.
  - exists 1. repeat split; lia.
Qed.

Lemma movePages_range (ms : list pageMove) :
  forall (b : t) (n : Z),
    page b = JS.Number (JS.ofZ n) ->
    - 2 ^ 53 < Z.min 1 n ->
    Z.max 1 n + Z.of_nat (List.length ms) < 2 ^ 53 ->
    exists n',
      page (movePages ms b) = JS.Number (JS.ofZ n') /\
      Z.min 1 n <= n' <= Z.max 1 n + Z.of_nat (List.length ms) /\
      queryParameters (movePages ms b) = queryParameters b /\
      baseUri (movePages ms b) = baseUri b.
Proof.
  unfold HttpQueryStringBuilder.movePages.
  induction ms as [|m ms IH]; intros b n Hp Hlow Hhigh.
  - exists n. simpl. repeat split; try assumption; lia.
  - cbn [fold_left]. cbn [List.length] in Hhigh |- *.
    rewrite Nat2Z.inj_succ in Hhigh |- *.
    destruct (movePage_range b m n Hp) as (n1 & Hp1 & Hn1 & Hq1 & Hu1).
    { unfold safeInteger. lia. }
    destruct (IH (movePage b m) n1 Hp1) as (n' & Hp' & Hn' & Hq' & Hu');
      try lia.
    exists n'. rewrite Hq', Hu', Hq1, Hu1. repeat split; try assumption; lia.
Qed.

(** X1. On an integer page, as long as the page numbers stay among the
    integers a double holds exactly (below 2^53), whatever sequence of
    [incrementPage], [decrementPage] and [resetPageNumber] the host calls,
    the page stays an integer and never falls below the smaller of 1 and
    the page it started from: a page that is at least 1 stays at least 1, a
    page that is at least 0 never becomes negative; the parameters and the
    base URI are not touched. *)
Theorem paging_never_falls_below_first_page
        (ms : list pageMove) (b : t) (n : Z) :
  page b = JS.Number (JS.ofZ n) ->
  safeInteger n ->
  Z.max 1 n + Z.of_nat (List.length ms) < 2 ^ 53 ->
  exists n',
    page (movePages ms b) = JS.Number (JS.ofZ n') /\
    Z.min 1 n <= n' /\
    (1 <= n -> 1 <= n') /\
    (0 <= n -> 0 <= n') /\
    queryParameters (movePages ms b) = queryParameters b /\
    baseUri (movePages ms b) = baseUri b.
Proof.
  unfold safeInteger. intros Hp Hsafe Hhigh.
  destruct (movePages_range ms b n Hp) as (n' & Hp' & Hn' & Hq & Hu);
    try lia.
  exists n'. repeat split; try assumption; lia.
Qed.

(** X2. On an integer page that a double holds exactly together with its
    neighbours (below 2^53 in absolute value), [decrementPage] undoes
    [incrementPage] exactly on the pages from 1 on; from a page below 1
    (the constructor's page 0) one step forward and one back ends one page
    further.  [incrementPage] undoes [decrementPage] exactly on the pages
    above 1. *)
Theorem previous_and_next_round_trips (b : t) (n : Z) :
  page b = JS.Number (JS.ofZ n) ->
  safeInteger n ->
  (1 <= n -> decrementPage (incrementPage b) = b) /\
  (n < 1 ->
   page (decrementPage (incrementPage b)) = JS.Number (JS.ofZ (n + 1))) /\
  (1 < n -> incrementPage (decrementPage b) = b) /\
  (n <= 1 ->
   page (incrementPage (decrementPage b)) = JS.Number (JS.ofZ (n + 1))).
Proof.
  unfold safeInteger. intros Hp Hsafe.
  destruct b as [u pg q]. simpl in Hp. subst pg.
  unfold HttpQueryStringBuilder.decrementPage,
    HttpQueryStringBuilder.incrementPage, JS.greaterThan.
  cbn [baseUri page queryParameters JS.ToNumber].
  rewrite plusOne_exact by lia. rewrite !number_lt_ofZ.
  repeat split; intros Hn.
  - replace (1 <? n + 1) with true by (symmetry; apply Z.ltb_lt; lia).
    simpl. rewrite minusOne_exact by lia.
    replace (n + 1 - 1) with n by lia. reflexivity.
  - replace (1 <? n + 1) with false by (symmetry; apply Z.ltb_ge; lia).
    reflexivity.
  - replace (1 <? n) with true by (symmetry; apply Z.ltb_lt; lia).
    simpl. rewrite minusOne_exact by lia. rewrite plusOne_exact by lia.
    replace (n - 1 + 1) with n by lia. reflexivity.
  - replace (1 <? n) with false by (symmetry; apply Z.ltb_ge; lia).
    simpl. now rewrite plusOne_exact by lia.
Qed.

End Builder.

Lemma searchPage_wellFormed : Collection.wellFormed (queryParameters searchPage).
Proof. repeat constructor; simpl; intuition discriminate. Qed.

Lemma buildQueryString_spec_witness :
  Collection.wellFormed (queryParameters searchPage) /\
  buildQueryString Engine.StringToNumber Engine.printNumber
                   Engine.encodeURIComponent searchPage
  = "?page=2&q=a%20b&lang=en".
Proof.
  split; [exact searchPage_wellFormed|].
  destruct (buildQueryString_spec Engine.StringToNumber Engine.printNumber
              Engine.encodeURIComponent searchPage 2 eq_refl
              searchPage_wellFormed) as (_ & Hpage & _).
  rewrite Hpage; [reflexivity | reflexivity].
Defined.

Lemma buildQueryString_empty_or_question_mark_witness :
  Collection.wellFormed (queryParameters searchPage) /\
  exists rest,
    buildQueryString Engine.StringToNumber Engine.printNumber
                     Engine.encodeURIComponent searchPage = "?" ++ rest.
Proof.
  split; [exact searchPage_wellFormed|].
  destruct (buildQueryString_empty_or_question_mark
              Engine.StringToNumber Engine.printNumber
              Engine.encodeURIComponent searchPage 2 eq_refl
              searchPage_wellFormed) as (_ & Hstart).
  apply Hstart. vm_compute. discriminate.
Defined.

Lemma sendRequest_after_reset_witness :
  JS.greaterThan Engine.StringToNumber (page new) (JS.ofZ 0) = false /\
  sendRequest Engine.StringToNumber Engine.printNumber
              Engine.encodeURIComponent new = mkRequest "GET" "/".
Proof.
  split; [reflexivity|].
  destruct (sendRequest_after_reset
              Engine.StringToNumber Engine.printNumber
              Engine.encodeURIComponent new) as (_ & Hbare & _).
  exact (Hbare eq_refl eq_refl).
Defined.

Lemma engine_plusOne_exact (z : Z) :
  - 2 ^ 53 <= z < 2 ^ 53 -> Engine.plusOne (JS.ofZ z) = JS.ofZ (z + 1).
Proof. reflexivity. Defined.

Lemma engine_minusOne_exact (z : Z) :
  - 2 ^ 53 < z <= 2 ^ 53 -> Engine.minusOne (JS.ofZ z) = JS.ofZ (z - 1).
Proof. reflexivity. Defined.

Lemma paging_never_falls_below_first_page_witness :
  exists n',
    page (movePages Engine.StringToNumber Engine.plusOne Engine.minusOne
                    [Previous; Previous; Next; Previous] searchPage)
    = JS.Number (JS.ofZ n') /\
    1 <= n'.
Proof.
  assert (Hsafe : safeInteger 2) by (unfold safeInteger; simpl; lia).
  assert (Hroom : Z.max 1 2 +
                  Z.of_nat (List.length [Previous; Previous; Next; Previous])
                  < 2 ^ 53) by (simpl; lia).
  destruct (paging_never_falls_below_first_page
              Engine.StringToNumber Engine.plusOne Engine.minusOne
              engine_plusOne_exact engine_minusOne_exact
              [Previous; Previous; Next; Previous] searchPage 2
              eq_refl Hsafe Hroom)
    as (n' & Hpage & _ & Hone & _).
  exists n'. split; [exact Hpage | apply Hone; lia].
Defined.

Lemma previous_and_next_round_trips_witness :
  decrementPage Engine.StringToNumber Engine.minusOne
    (incrementPage Engine.StringToNumber Engine.plusOne searchPage)
  = searchPage /\
  page (decrementPage Engine.StringToNumber Engine.minusOne
          (incrementPage Engine.StringToNumber Engine.plusOne new))
  = JS.Number (JS.ofZ 1).
Proof.
  assert (H2 : safeInteger 2) by (unfold safeInteger; simpl; lia).
  assert (H0 : safeInteger 0) by (unfold safeInteger; simpl; lia).
  destruct (previous_and_next_round_trips
              Engine.StringToNumber Engine.plusOne Engine.minusOne
              engine_plusOne_exact engine_minusOne_exact
              searchPage 2 eq_refl H2) as (Hback & _).
  destruct (previous_and_next_round_trips
              Engine.StringToNumber Engine.plusOne Engine.minusOne
              engine_plusOne_exact engine_minusOne_exact
              new 0 eq_refl H0) as (_ & Hstuck & _).
  split; [apply Hback; lia | apply Hstuck; lia].
Defined.

(** The builder on small inputs. *)
Example buildQueryString_fresh :
  buildQueryString Engine.StringToNumber Engine.printNumber
                   Engine.encodeURIComponent new = "".
Proof. reflexivity. Qed.

Example buildQueryString_page_only :
  buildQueryString Engine.StringToNumber Engine.printNumber
                   Engine.encodeURIComponent
                   (incrementPage Engine.StringToNumber Engine.plusOne new)
  = "?page=1".
Proof. reflexivity. Qed.

Example buildQueryString_without_page :
  buildQueryString Engine.StringToNumber Engine.printNumber
                   Engine.encodeURIComponent
                   (setPage searchPage JS.Null) = "?q=a%20b&lang=en".
Proof. reflexivity. Qed.

Example buildQueryString_string_page :
  buildQueryString Engine.StringToNumber Engine.printNumber
                   Engine.encodeURIComponent
                   (setPage searchPage (JS.Str "3")) = "?page=3&q=a%20b&lang=en".
Proof. reflexivity. Qed.

Example buildQueryString_after_remove :
  buildQueryString Engine.StringToNumber Engine.printNumber
                   Engine.encodeURIComponent
                   (removeQueryParameter searchPage "q") = "?page=2&lang=en".
Proof. reflexivity. Qed.

End QueryStringProofs.

(* ===================================================================== *)
(** * Properties of the toggle button *)
(* ===================================================================== *)

Module ToggleButtonProofs.

Import ToggleButton.
Local Open Scope list_scope.

Section Button.

Variable StringToNumber : string -> JS.number.
Variable toUpperCase : string -> string.

Local Abbreviation normalize := (normalize StringToNumber).
Local Abbreviation selectState := (selectState StringToNumber toUpperCase).
Local Abbreviation sendRequest := (sendRequest toUpperCase).
Local Abbreviation buildRequest := (buildRequest toUpperCase).
Local Abbreviation deliver := (deliver StringToNumber toUpperCase).
Local Abbreviation run := (run StringToNumber toUpperCase).
Local Abbreviation reachable := (reachable StringToNumber toUpperCase).

Lemma normalize_0_or_1 (v : JS.value) : normalize v = 0 \/ normalize v = 1.
Proof.
  unfold ToggleButton.normalize.
  destruct (_ || _); [now right | now left].
Qed.

Lemma transmitted_app (xs ys : list effect) :
  transmitted (xs ++ ys) = transmitted xs ++ transmitted ys.
Proof. unfold transmitted. now rewrite flat_map_app. Qed.

Lemma transmitted_notify (cb : JS.callback) (e : effect) :
  (forall r, e <> Transmit r) -> transmitted (notify cb e) = [].
Proof.
  intros He. unfold notify. destruct (JS.isFunction cb); [|reflexivity].
  destruct e; try reflexivity. now elim (He r).
Qed.

(** What [sendRequest] does, by the in-flight flag. *)
Lemma sendRequest_busy (b : t) :
  isRequestInProgress b = true -> sendRequest b = (b, []).
Proof. intros H. unfold ToggleButton.sendRequest. now rewrite H. Qed.

Lemma sendRequest_idle (b : t) :
  isRequestInProgress b = false ->
  sendRequest b =
  (set_isRequestInProgress b true,
   notify (beforeSendCallback b) BeforeSendCallback
     ++ [Transmit (buildRequest b)]).
Proof. intros H. unfold ToggleButton.sendRequest. now rewrite H. Qed.

Lemma deliver_consistent (e : event) (p p' : page) :
  consistent p -> deliver e p = Some p' -> consistent p'.
Proof.
  unfold consistent. destruct p as [b out lg]. simpl.
  destruct e as [v | ok]; simpl.
  - unfold ToggleButton.selectState.
    destruct (isRequestInProgress b) eqn:Hflag; intros Hlen Hd.
    + rewrite sendRequest_busy in Hd by exact Hflag.
      inversion Hd; subst; simpl. rewrite Hflag, app_nil_r. exact Hlen.
    + rewrite sendRequest_idle in Hd by exact Hflag.
      inversion Hd; subst; simpl.
      rewrite transmitted_app, transmitted_notify by discriminate.
      simpl. rewrite length_app, Hlen. reflexivity.
  - intros Hlen Hd. destruct out as [|r rest]; [discriminate|].
    destruct (isRequestInProgress b); simpl in Hlen; [|discriminate].
    destruct ok; inversion Hd; subst; simpl; now inversion Hlen.
Qed.

Lemma run_consistent (es : list event) :
  forall p p', consistent p -> run es p = Some p' -> consistent p'.
Proof.
  induction es as [|e es IH]; simpl; intros p p' Hc Hr.
  - now inversion Hr; subst.
  - destruct (deliver e p) as [p1|] eqn:Hd; [|discriminate].
    eapply IH; [eapply deliver_consistent; eassumption | exact Hr].
Qed.

Lemma reachable_consistent (p : page) : reachable p -> consistent p.
Proof.
  intros (b & es & Hflag & Hr).
  eapply run_consistent; [|exact Hr].
  unfold consistent, start; simpl. now rewrite Hflag.
Qed.

Lemma run_app (es1 es2 : list event) :
  forall p p1, run es1 p = Some p1 -> run (es1 ++ es2) p = run es2 p1.
Proof.
  induction es1 as [|e es1 IH]; simpl; intros p p1 H.
  - now inversion H.
  - destruct (deliver e p); [now apply IH | discriminate].
Qed.

Lemma reachable_step (e : event) (p p' : page) :
  reachable p -> deliver e p = Some p' -> reachable p'.
Proof.
  intros (b & es & Hflag & Hr) Hd. exists b, (es ++ [e]). split; [exact Hflag|].
  rewrite (run_app _ _ _ _ Hr). simpl. now rewrite Hd.
Qed.




(** C10. When [selectState(value)] is called while a request is in progress,
    no request is sent, yet [selectedState] becomes the normalized value
    (1 when [value == true], [value == 1] or [value == "1"], otherwise 0);
    when the request on the wire then succeeds, [serverState] becomes that
    newer value.  It can differ from the value that was submitted: in
    [lateSelection] the only request sent carries [state = 1] and the button
    ends with [serverState = 0]. *)
Theorem selectState_while_busy_overwrites :
  (forall (p : page) (v : JS.value),
     reachable p ->
     isRequestInProgress (button p) = true ->
     exists p1 p2,
       deliver (Select v) p = Some p1 /\
       transmitted (snd (selectState v (button p))) = [] /\
       outstanding p1 = outstanding p /\
       selectedState (button p1) = normalize v /\
       (normalize v =
          if JS.looseEq StringToNumber v (JS.Boolean true)
             || JS.looseEq StringToNumber v (JS.Number (JS.ofZ 1))
             || JS.looseEq StringToNumber v (JS.Str "1")
          then 1 else 0) /\
       deliver (Respond true) p1 = Some p2 /\
       serverState (button p2) = normalize v)
  /\
  (toUpperCase "POST" = "POST" ->
   exists p2,
     run lateSelection (start freshButton) = Some p2 /\
     transmitted (log p2) =
       [mkRequest "POST" "/toggle" "json" (Some ("state", 1))] /\
     serverState (button p2) = 0).
Proof.
  split.
  - intros p v Hreach Hflag.
    pose proof (reachable_consistent p Hreach) as Hc.
    unfold consistent in Hc. rewrite Hflag in Hc.
    destruct p as [b out lg]. simpl in *.
    destruct out as [|r [|r' rest]]; try discriminate.
    unfold ToggleButton.selectState.
    rewrite sendRequest_busy by exact Hflag. simpl.
    do 2 eexists. split; [reflexivity|]. simpl.
    repeat split; reflexivity.
  - intros HPOST. unfold lateSelection, start, freshButton, new. simpl.
    unfold ToggleButton.selectState, ToggleButton.sendRequest,
      ToggleButton.buildRequest. simpl. rewrite HPOST. simpl.
    eexists; split; [reflexivity|]. simpl. split; reflexivity.
Qed.

End Button.

Lemma busyPage_reachable :
  reachable Engine.StringToNumber Engine.toUpperCase busyPage.
Proof.
  exists freshButton, [Select (JS.Prim (JS.Boolean true))].
  split; reflexivity.
Defined.


Lemma selectState_while_busy_overwrites_witness :
  (exists p1 p2,
     deliver Engine.StringToNumber Engine.toUpperCase
             (Select (JS.Prim JS.Null)) busyPage = Some p1 /\
     outstanding p1 = outstanding busyPage /\
     selectedState (button p1) = 0 /\
     deliver Engine.StringToNumber Engine.toUpperCase (Respond true) p1
     = Some p2 /\
     serverState (button p2) = 0) /\
  (exists p2,
     run Engine.StringToNumber Engine.toUpperCase lateSelection
         (start freshButton) = Some p2 /\
     serverState (button p2) = 0).
Proof.
  destruct (selectState_while_busy_overwrites
              Engine.StringToNumber Engine.toUpperCase) as [Hbusy Hlate].
  split.
  - destruct (Hbusy busyPage (JS.Prim JS.Null) busyPage_reachable eq_refl)
      as (p1 & p2 & Hd & _ & Hout & Hsel & _ & Hok & Hsrv).
    exists p1, p2. repeat split; assumption.
  - destruct (Hlate eq_refl) as (p2 & Hr & _ & Hsrv).
    exists p2. split; assumption.
Defined.

(** The button on small runs. *)
Example toggle_confirmed :
  option_map (fun p => (serverState (button p), selectedState (button p),
                        isRequestInProgress (button p)))
    (run Engine.StringToNumber Engine.toUpperCase
         [Select (JS.Prim (JS.Str "1")); Respond true] (start freshButton))
  = Some (1, 1, false).
Proof. reflexivity. Qed.

Example toggle_rejected :
  option_map (fun p => (serverState (button p), selectedState (button p),
                        isRequestInProgress (button p)))
    (run Engine.StringToNumber Engine.toUpperCase
         [Select (JS.Prim (JS.Number (JS.ofZ 1))); Respond false]
         (start freshButton))
  = Some (0, 0, false).
Proof. reflexivity. Qed.

Example response_without_request :
  run Engine.StringToNumber Engine.toUpperCase [Respond true]
      (start freshButton) = None.
Proof. reflexivity. Qed.

Section Runs.

Variable StringToNumber : string -> JS.number.
Variable toUpperCase : string -> string.

Local Abbreviation normalize := (ToggleButton.normalize StringToNumber).
Local Abbreviation selectState :=
  (ToggleButton.selectState StringToNumber toUpperCase).
Local Abbreviation deliver := (ToggleButton.deliver StringToNumber toUpperCase).
Local Abbreviation run := (ToggleButton.run StringToNumber toUpperCase).
Local Abbreviation onResponseCalling :=
  (ToggleButton.onResponseCalling StringToNumber toUpperCase).

(** What one turn does to the button, by the event and the flag. *)
Lemma deliver_select (v : JS.value) (p : page) :
  deliver (Select v) p =
  Some (if isRequestInProgress (button p)
        then mkPage (set_selectedState (button p) (normalize v))
                    (outstanding p) (log p)
        else mkPage (set_isRequestInProgress
                       (set_selectedState (button p) (normalize v)) true)
                    (outstanding p ++
                     [buildRequest toUpperCase
                        (set_selectedState (button p) (normalize v))])
                    (log p ++
                     notify (beforeSendCallback (button p)) BeforeSendCallback
                     ++ [Transmit (buildRequest toUpperCase
                           (set_selectedState (button p) (normalize v)))])).
Proof.
  simpl. unfold ToggleButton.selectState.
  destruct (isRequestInProgress (button p)) eqn:Hflag.
  - rewrite sendRequest_busy by exact Hflag. simpl. now rewrite !app_nil_r.
  - rewrite sendRequest_idle by exact Hflag. simpl.
    now rewrite transmitted_app, transmitted_notify by discriminate.
Qed.

Lemma deliver_respond (ok : bool) (p : page) (r : request)
      (rest : list request) :
  outstanding p = r :: rest ->
  exists p',
    deliver (Respond ok) p = Some p' /\
    outstanding p' = rest /\
    isRequestInProgress (button p') = false /\
    selectedState (button p') = serverState (button p') /\
    sameConfiguration (button p) (button p') /\
    transmitted (log p') = transmitted (log p).
Proof.
  intros Hout. simpl. rewrite Hout.
  destruct ok; simpl; eexists; (split; [reflexivity|]); simpl;
    rewrite !transmitted_app, !transmitted_notify by discriminate;
    rewrite !app_nil_r; repeat split; reflexivity.
Qed.

Lemma deliver_accounts (e : event) (p p' : page) :
  deliver e p = Some p' ->
  (List.length (transmitted (log p')) + List.length (outstanding p) =
   List.length (transmitted (log p)) + responses [e]
   + List.length (outstanding p'))%nat.
Proof.
  unfold responses. destruct e as [v | ok].
  - rewrite deliver_select. intros H; inversion H; subst; clear H.
    destruct (isRequestInProgress (button p)); simpl; [lia|].
    rewrite !transmitted_app, transmitted_notify by discriminate.
    simpl. rewrite !length_app. simpl. lia.
  - destruct (outstanding p) as [|r rest] eqn:Hout;
      [simpl; rewrite Hout; discriminate|].
    destruct (deliver_respond ok p r rest Hout)
      as (q & Hd & Hrest & _ & _ & _ & Hlog).
    rewrite Hd. intros H. injection H as <-.
    rewrite Hlog, Hrest. simpl. lia.
Qed.

Lemma run_accounts (es : list event) :
  forall p p', run es p = Some p' ->
  (List.length (transmitted (log p')) + List.length (outstanding p) =
   List.length (transmitted (log p)) + responses es
   + List.length (outstanding p'))%nat.
Proof.
  induction es as [|e es IH]; simpl; intros p p' Hr.
  - inversion Hr; subst. unfold responses; simpl. lia.
  - destruct (ToggleButton.deliver StringToNumber toUpperCase e p)
      as [p1|] eqn:Hd; [|discriminate].
    pose proof (deliver_accounts e p p1 Hd) as H1.
    pose proof (IH p1 p' Hr) as H2.
    unfold responses in *. simpl in *.
    destruct e; simpl in *; lia.
Qed.

(** X5. However the host's selections and the server's responses follow one
    another on a freshly built button, there is never more than one request
    on the wire, the flag [isRequestInProgress] is up exactly when there is
    one, and every request sent has been answered or is the one on the
    wire: none is lost, none is sent twice. *)
Theorem one_request_at_a_time (b : t) (es : list event) (p : page) :
  isRequestInProgress b = false ->
  run es (start b) = Some p ->
  (List.length (outstanding p) <= 1)%nat /\
  (isRequestInProgress (button p) = true <-> outstanding p <> []) /\
  List.length (transmitted (log p)) =
    (responses es + List.length (outstanding p))%nat.
Proof.
  intros Hflag Hr.
  assert (Hc : consistent p).
  { apply (reachable_consistent StringToNumber toUpperCase).
    exists b, es. now split. }
  pose proof (run_accounts es (start b) p Hr) as Hacc.
  unfold consistent in Hc. simpl in Hacc.
  destruct (isRequestInProgress (button p));
    destruct (outstanding p) as [|r rest]; simpl in *; try discriminate;
    repeat split; try lia; try discriminate; try congruence.
Qed.

Lemma sameConfiguration_refl (b : t) : sameConfiguration b b.
Proof. repeat split. Qed.

Lemma sameConfiguration_trans (a b c : t) :
  sameConfiguration a b -> sameConfiguration b c -> sameConfiguration a c.
Proof.
  unfold sameConfiguration. intros (H1 & H2 & H3 & H4) (K1 & K2 & K3 & K4).
  repeat split; congruence.
Qed.

Lemma requestOf_built (b b' : t) (v : JS.value) :
  sameConfiguration b b' ->
  requestOf toUpperCase b
    (buildRequest toUpperCase (set_selectedState b' (normalize v))).
Proof.
  intros (Hu & Hm & Hd & Hp). unfold requestOf, buildRequest; simpl.
  rewrite Hu, Hm, Hd, Hp. repeat split.
  destruct (String.eqb (toUpperCase (httpMethod b)) "POST"); [|reflexivity].
  destruct (normalize_0_or_1 StringToNumber v) as [-> | ->];
    [now left | now right].
Qed.

Lemma deliver_requests (b : t) (e : event) (p p' : page) :
  sameConfiguration b (button p) ->
  Forall (requestOf toUpperCase b) (transmitted (log p)) ->
  deliver e p = Some p' ->
  sameConfiguration b (button p') /\
  Forall (requestOf toUpperCase b) (transmitted (log p')).
Proof.
  intros Hcfg Hall. destruct e as [v | ok].
  - rewrite deliver_select. intros H; inversion H; subst; clear H.
    destruct (isRequestInProgress (button p)); simpl.
    + split; [exact Hcfg | exact Hall].
    + split; [exact Hcfg|].
      rewrite !transmitted_app, transmitted_notify by discriminate.
      simpl. apply Forall_app. split; [exact Hall|].
      constructor; [|constructor]. now apply requestOf_built.
  - destruct (outstanding p) as [|r rest] eqn:Hout;
      [simpl; rewrite Hout; discriminate|].
    destruct (deliver_respond ok p r rest Hout)
      as (q & Hd & _ & _ & _ & Hcfg' & Hlog).
    rewrite Hd. intros H. injection H as <-.
    split; [eapply sameConfiguration_trans; eassumption|].
    now rewrite Hlog.
Qed.

(** X6. Every request the button ever sends goes to the button's URI with
    its method and data type.  When the method is [POST], in any case of
    letters, its data is the state 0 or 1 under the button's parameter name;
    with any other method the request carries no data at all, so the
    selected state never leaves the page. *)
Theorem every_request_is_the_buttons (b : t) (es : list event) (p : page) :
  run es (start b) = Some p ->
  Forall (requestOf toUpperCase b) (transmitted (log p)) /\
  (String.eqb (toUpperCase (httpMethod b)) "POST" = false ->
   Forall (fun r => data r = None) (transmitted (log p))).
Proof.
  intros Hr.
  assert (H : sameConfiguration b (button p) /\
              Forall (requestOf toUpperCase b) (transmitted (log p))).
  { assert (Hgen : forall es p0 p1,
               sameConfiguration b (button p0) ->
               Forall (requestOf toUpperCase b) (transmitted (log p0)) ->
               run es p0 = Some p1 ->
               sameConfiguration b (button p1) /\
               Forall (requestOf toUpperCase b) (transmitted (log p1))).
    { clear. induction es as [|e es IH]; simpl; intros p0 p1 Hc Ha Hr.
      - inversion Hr; subst. now split.
      - destruct (ToggleButton.deliver StringToNumber toUpperCase e p0)
          as [q|] eqn:Hd; [|discriminate].
        destruct (deliver_requests b e p0 q Hc Ha Hd) as [Hc' Ha'].
        now apply (IH q p1). }
    apply (Hgen es (start b) p); [apply sameConfiguration_refl | | exact Hr].
    constructor. }
  destruct H as [_ Hall]. split; [exact Hall|].
  intros Hother. eapply Forall_impl; [|exact Hall].
  intros r (_ & _ & _ & Hdata). now rewrite Hother in Hdata.
Qed.

Lemma deliver_in_sync (e : event) (p p' : page) :
  deliver e p = Some p' ->
  isRequestInProgress (button p') = false ->
  selectedState (button p') = serverState (button p').
Proof.
  destruct e as [v | ok].
  - rewrite deliver_select. intros H; inversion H; subst; clear H.
    destruct (isRequestInProgress (button p)) eqn:Hflag; simpl;
      [now rewrite Hflag | discriminate].
  - destruct (outstanding p) as [|r rest] eqn:Hout;
      [simpl; rewrite Hout; discriminate|].
    destruct (deliver_respond ok p r rest Hout)
      as (q & Hd & _ & _ & Hsync & _).
    rewrite Hd. intros H. injection H as <-. now intros _.
Qed.

(** X7. On a button built with the constructor (the two states start equal)
    on which the host has set no [successCallback] and no [errorCallback]
    (so that no host code runs between [success] or [error] and
    [complete], where a [selectState] would be dropped with the flag still
    up), whenever no request is in progress the selected state is the
    server state: the two differ only while a request is on the wire. *)
Theorem idle_button_shows_server_state (b : t) (es : list event) (p : page) :
  JS.isFunction (successCallback b) = false ->
  JS.isFunction (errorCallback b) = false ->
  selectedState b = serverState b ->
  run es (start b) = Some p ->
  isRequestInProgress (button p) = false ->
  selectedState (button p) = serverState (button p).
Proof.
  intros _ _ Hsync Hr.
  assert (Hgen : forall es p0 p1,
             (isRequestInProgress (button p0) = false ->
              selectedState (button p0) = serverState (button p0)) ->
             run es p0 = Some p1 ->
             isRequestInProgress (button p1) = false ->
             selectedState (button p1) = serverState (button p1)).
  { clear. induction es as [|e es IH]; simpl; intros p0 p1 H0 Hr.
    - now inversion Hr; subst.
    - destruct (ToggleButton.deliver StringToNumber toUpperCase e p0)
        as [q|] eqn:Hd; [|discriminate].
      apply (IH q p1); [|exact Hr]. now apply (deliver_in_sync e p0). }
  apply (Hgen es (start b) p); [intros _; exact Hsync | exact Hr].
Qed.

(** The response with callbacks that make no call, or that are not
    functions, is [onResponse]. *)
Lemma onResponseCalling_quiet (ok : bool) (states : list JS.value) (b : t) :
  states = [] \/
  JS.isFunction (if ok then successCallback b else errorCallback b) = false ->
  onResponseCalling ok states b = onResponse ok b.
Proof.
  intros H. unfold ToggleButton.onResponseCalling, ToggleButton.onResponse.
  destruct ok; cbn [success error set_serverState set_selectedState
                    successCallback errorCallback].
  - destruct H as [-> | ->]; [destruct (JS.isFunction _)|];
      cbn [ToggleButton.calling]; now rewrite ?app_nil_l.
  - destruct H as [-> | ->]; [destruct (JS.isFunction _)|];
      cbn [ToggleButton.calling]; now rewrite ?app_nil_l.
Qed.

(** X17. A [selectState(value)] that the host makes from its
    [successCallback] or [errorCallback] is dropped: the callback runs
    before [complete] lowers the flag, so no request is sent for it, yet
    the selection is stored; when the response is over the button is idle,
    its server state is the state the answered request settled, and its
    selected state is the normalized value, whether or not the two are
    equal. *)
Theorem selectState_from_response_callback_is_dropped
        (ok : bool) (v : JS.value) (b : t) :
  isRequestInProgress b = true ->
  JS.isFunction (if ok then successCallback b else errorCallback b) = true ->
  isRequestInProgress (fst (onResponseCalling ok [v] b)) = false /\
  transmitted (snd (onResponseCalling ok [v] b)) = [] /\
  selectedState (fst (onResponseCalling ok [v] b)) = normalize v /\
  serverState (fst (onResponseCalling ok [v] b)) =
    (if ok then selectedState b else serverState b).
Proof.
  intros Hbusy Hcb.
  destruct b as [u sv sl hm dt pn fl cb1 cb2 cb3 cb4].
  simpl in Hbusy. subst fl.
  unfold ToggleButton.onResponseCalling, ToggleButton.calling,
    ToggleButton.selectState, ToggleButton.sendRequest.
  destruct ok, cb2, cb3, cb4; simpl in Hcb; try discriminate Hcb;
    repeat split; reflexivity.
Qed.

End Runs.

Lemma selectState_from_response_callback_is_dropped_witness :
  isRequestInProgress watchedButton = true /\
  isRequestInProgress
    (fst (onResponseCalling Engine.StringToNumber Engine.toUpperCase
            true [JS.Prim JS.Null] watchedButton)) = false /\
  selectedState
    (fst (onResponseCalling Engine.StringToNumber Engine.toUpperCase
            true [JS.Prim JS.Null] watchedButton)) = 0 /\
  serverState
    (fst (onResponseCalling Engine.StringToNumber Engine.toUpperCase
            true [JS.Prim JS.Null] watchedButton)) = 1.
Proof.
  destruct (selectState_from_response_callback_is_dropped
              Engine.StringToNumber Engine.toUpperCase
              true (JS.Prim JS.Null) watchedButton eq_refl eq_refl)
    as (Hidle & _ & Hselected & Hserver).
  split; [reflexivity|]. split; [exact Hidle|].
  split; [exact Hselected | exact Hserver].
Defined.

Lemma one_request_at_a_time_witness :
  exists p,
    run Engine.StringToNumber Engine.toUpperCase
        [Select (JS.Prim (JS.Boolean true)); Respond false;
         Select (JS.Prim (JS.Boolean true))]
        (start freshButton) = Some p /\
    List.length (transmitted (log p)) = 2%nat /\
    List.length (outstanding p) = 1%nat.
Proof.
  destruct (run Engine.StringToNumber Engine.toUpperCase
              [Select (JS.Prim (JS.Boolean true)); Respond false;
               Select (JS.Prim (JS.Boolean true))]
              (start freshButton)) as [p|] eqn:Hr;
    [|vm_compute in Hr; discriminate].
  exists p. split; [reflexivity|].
  destruct (one_request_at_a_time
              Engine.StringToNumber Engine.toUpperCase freshButton _ p
              eq_refl Hr) as (_ & _ & Hcount).
  assert (Hout : List.length (outstanding p) = 1%nat).
  { vm_compute in Hr. injection Hr as <-. reflexivity. }
  split; [rewrite Hcount, Hout; reflexivity | exact Hout].
Defined.

Lemma every_request_is_the_buttons_witness :
  exists p,
    run Engine.StringToNumber Engine.toUpperCase
        [Select (JS.Prim (JS.Boolean true)); Respond true;
         Select (JS.Prim JS.Null)]
        (start (set_httpMethod freshButton "get")) = Some p /\
    Forall (fun r => data r = None) (transmitted (log p)).
Proof.
  eexists. split; [reflexivity|].
  match goal with |- Forall _ (transmitted (log ?p)) =>
    destruct (every_request_is_the_buttons
                Engine.StringToNumber Engine.toUpperCase
                (set_httpMethod freshButton "get")
                [Select (JS.Prim (JS.Boolean true)); Respond true;
                 Select (JS.Prim JS.Null)]
                p eq_refl) as (_ & Hnone)
  end.
  exact (Hnone eq_refl).
Defined.

Lemma idle_button_shows_server_state_witness :
  exists p,
    run Engine.StringToNumber Engine.toUpperCase
        [Select (JS.Prim (JS.Boolean true)); Select (JS.Prim JS.Null);
         Respond true]
        (start freshButton) = Some p /\
    isRequestInProgress (button p) = false /\
    selectedState (button p) = serverState (button p).
Proof.
  eexists. split; [reflexivity|]. split; [reflexivity|].
  match goal with |- selectedState (button ?p) = _ =>
    exact (idle_button_shows_server_state
             Engine.StringToNumber Engine.toUpperCase freshButton
             [Select (JS.Prim (JS.Boolean true)); Select (JS.Prim JS.Null);
              Respond true]
             p eq_refl eq_refl eq_refl eq_refl eq_refl)
  end.
Defined.

End ToggleButtonProofs.

(* ===================================================================== *)
(** * Properties of the map widget *)
(* ===================================================================== *)

Module GoogleMapProofs.

Import GoogleMap.
Local Open Scope list_scope.

(** Splits the widget into the cases its methods look at. *)
Ltac widget_cases this :=
  destruct this as [wGeo [wMap|] [wMarker|] [[wVisible wCenter]|]
                    cbR cbT cbS cbE wWait wFocused wMin];
  try destruct wVisible; try destruct cbR; try destruct cbT; try destruct cbS;
  try destruct cbE.

(** [focusOnLocation] on a map that reports its bounds. *)
Lemma focusOnLocation_calls (this : t) (m : Map) (bounds : LatLngBounds)
      (lat lng : JS.number) :
  map this = Some m -> getBounds m = Some bounds ->
  focusOnLocation lat lng this =
  if negb (contains bounds (mkLatLng lat lng))
     || (getZoom m <? minFocusedZoomLevel this)
  then mkOutcome (Normal tt)
         (set_map this (Some (mkMap (getBounds m) (focusedZoomLevel this))))
         [Map_setZoom (focusedZoomLevel this); Map_panTo (mkLatLng lat lng)]
  else mkOutcome (Normal tt) this [].
Proof.
  intros Hm Hb. destruct this; simpl in *; subst.
  destruct m as [b z]; simpl in *; subst.
  unfold focusOnLocation, bind; simpl.
  destruct (negb (contains bounds (mkLatLng lat lng)) || (z <? _));
    reflexivity.
Qed.

Lemma bind_normal {A B} (m : js A) (k : A -> js B) (this : t) (a : A) :
  result (m this) = Normal a ->
  bind m k this =
  mkOutcome (result (k a (final (m this)))) (final (k a (final (m this))))
            (calls (m this) ++ calls (k a (final (m this)))).
Proof. intros H. unfold bind. rewrite H. reflexivity. Qed.

Lemma notify_run (cb : JS.callback) (c : call) (this : t) :
  notify cb c this =
  mkOutcome (Normal tt) this (if JS.isFunction cb then [c] else []).
Proof. unfold notify, when. destruct (JS.isFunction cb); reflexivity. Qed.

Lemma setUserMarker_run (this : t) (m : Map) (lat lng : JS.number) :
  map this = Some m ->
  exists mk',
    setUserMarker lat lng this =
    mkOutcome (Normal tt) (set_userMarker this (Some mk'))
      ((if isNull (userMarker this) then [Marker_new] else [])
       ++ [Marker_setMap true; Marker_setAnimation DROP;
           Marker_setPosition (mkLatLng lat lng)]) /\
    attached mk' = true /\ position mk' = Some (mkLatLng lat lng).
Proof.
  intros Hm. destruct this; simpl in Hm; subst.
  destruct userMarker0; eexists; repeat split; reflexivity.
Qed.

Lemma setUserLocationCirclePosition_run (this : t) (lat lng : JS.number) :
  setUserLocationCirclePosition lat lng this =
  match userLocationCircle this with
  | Some c =>
      mkOutcome (Normal tt)
        (set_userLocationCircle this
           (Some (mkCircle true (Some (mkLatLng lat lng)))))
        ((if getVisible c then [] else [Circle_setVisible true])
         ++ [Circle_setCenter (mkLatLng lat lng)])
  | None => mkOutcome (Normal tt) this []
  end.
Proof.
  destruct this. destruct userLocationCircle0 as [[[|] ce]|]; reflexivity.
Qed.

Lemma onGeolocationSuccess_steps (this : t) (lat lng : JS.number) :
  result (focusOnLocation lat lng this) = Normal tt ->
  result (setUserMarker lat lng (final (focusOnLocation lat lng this)))
    = Normal tt ->
  onGeolocationSuccess lat lng this =
  mkOutcome
    (result (setUserLocationCirclePosition lat lng
       (final (setUserMarker lat lng (final (focusOnLocation lat lng this))))))
    (final (setUserLocationCirclePosition lat lng
       (final (setUserMarker lat lng (final (focusOnLocation lat lng this))))))
    ((if JS.isFunction (onGeolocationSuccessCallback this)
      then [SuccessCallback lat lng] else [])
     ++ calls (focusOnLocation lat lng this)
     ++ calls (setUserMarker lat lng (final (focusOnLocation lat lng this)))
     ++ calls (setUserLocationCirclePosition lat lng
         (final (setUserMarker lat lng (final (focusOnLocation lat lng this)))))).
Proof.
  intros H1 H2. unfold onGeolocationSuccess.
  rewrite (bind_normal read _ this this eq_refl). cbn [read final calls app].
  rewrite (bind_normal (notify _ _) _ this tt)
    by (now rewrite notify_run).
  rewrite notify_run. cbn [final calls].
  rewrite (bind_normal (focusOnLocation lat lng) _ this tt H1).
  rewrite (bind_normal (setUserMarker lat lng) _ _ tt H2).
  reflexivity.
Qed.
Lemma focusOnLocation_null (this : t) (lat lng : JS.number) :
  map this = None ->
  focusOnLocation lat lng this = mkOutcome (Normal tt) this [].
Proof. intros Hm. destruct this; simpl in Hm; subst. reflexivity. Qed.

Lemma setUserMarker_null (this : t) (lat lng : JS.number) :
  map this = None ->
  setUserMarker lat lng this = mkOutcome (Normal tt) this [].
Proof. intros Hm. destruct this; simpl in Hm; subst. reflexivity. Qed.

(** What each step of the success handler leaves alone. *)
Lemma focusOnLocation_frame (this : t) (lat lng : JS.number) :
  boundsKnown this ->
  result (focusOnLocation lat lng this) = Normal tt /\
  forallb isCameraCall (calls (focusOnLocation lat lng this)) = true /\
  userMarker (final (focusOnLocation lat lng this)) = userMarker this /\
  userLocationCircle (final (focusOnLocation lat lng this)) =
    userLocationCircle this /\
  isNull (map (final (focusOnLocation lat lng this))) = isNull (map this).
Proof.
  unfold boundsKnown. intros Hb.
  destruct (map this) as [m|] eqn:Hm.
  - destruct (getBounds m) as [bounds|] eqn:Hbounds; [|now elim Hb].
    rewrite (focusOnLocation_calls this m bounds lat lng Hm Hbounds).
    destruct (negb (contains bounds (mkLatLng lat lng)) || _);
      cbn [result final calls]; rewrite ?Hm;
      destruct this; repeat split; reflexivity.
  - rewrite (focusOnLocation_null this lat lng Hm).
    cbn [result final calls]. rewrite Hm. repeat split; reflexivity.
Qed.

Lemma setUserMarker_frame (this : t) (lat lng : JS.number) :
  result (setUserMarker lat lng this) = Normal tt /\
  forallb isMarkerCall (calls (setUserMarker lat lng this)) = true /\
  userLocationCircle (final (setUserMarker lat lng this)) =
    userLocationCircle this /\
  (isNull (map this) = false ->
   exists mk', userMarker (final (setUserMarker lat lng this)) = Some mk' /\
               attached mk' = true /\
               position mk' = Some (mkLatLng lat lng)).
Proof.
  destruct (map this) as [m|] eqn:Hm.
  - destruct (setUserMarker_run this m lat lng Hm) as (mk' & Hrun & Ha & Hp).
    rewrite Hrun. cbn [result final calls].
    split; [reflexivity|]. split; [|split].
    + destruct (isNull (userMarker this)); reflexivity.
    + destruct this; reflexivity.
    + intros _. exists mk'. destruct this. repeat split; assumption.
  - rewrite (setUserMarker_null this lat lng Hm). cbn [result final calls].
    split; [reflexivity|]. split; [reflexivity|]. split; [reflexivity|].
    discriminate.
Qed.

Lemma setUserLocationCirclePosition_frame (this : t) (lat lng : JS.number) :
  result (setUserLocationCirclePosition lat lng this) = Normal tt /\
  forallb isCircleCall (calls (setUserLocationCirclePosition lat lng this))
    = true /\
  userMarker (final (setUserLocationCirclePosition lat lng this)) =
    userMarker this /\
  (userLocationCircle this <> None ->
   userLocationCircle (final (setUserLocationCirclePosition lat lng this)) =
   Some (mkCircle true (Some (mkLatLng lat lng)))).
Proof.
  rewrite setUserLocationCirclePosition_run.
  destruct (userLocationCircle this) as [[vis ce]|] eqn:Hc;
    cbn [result final calls getVisible].
  - split; [reflexivity|]. split; [|split].
    + destruct vis; reflexivity.
    + destruct this; reflexivity.
    + intros _. destruct this; reflexivity.
  - split; [reflexivity|]. split; [reflexivity|]. split; [reflexivity|].
    intros H; now elim H.
Qed.

Lemma filter_all (P : call -> bool) (l : list call) :
  forallb P l = true -> filter P l = l.
Proof.
  induction l as [|c l IH]; simpl; [reflexivity|].
  intros H. apply andb_true_iff in H. destruct H as [Hc Hl].
  rewrite Hc. now rewrite IH.
Qed.

Lemma filter_none (P Q : call -> bool) (l : list call) :
  (forall c, P c = true -> Q c = false) ->
  forallb P l = true -> filter Q l = [].
Proof.
  intros HPQ. induction l as [|c l IH]; simpl; [reflexivity|].
  intros H. apply andb_true_iff in H. destruct H as [Hc Hl].
  rewrite (HPQ c Hc). now apply IH.
Qed.

(** X18. On an initialized map that reports its bounds, the success path
    issues the recenter-and-zoom ([setZoom(focusedZoomLevel)] then
    [panTo(lat, lng)]) when the coordinate is outside the current bounds or
    the current zoom is below [minFocusedZoomLevel], and issues no camera
    call at all otherwise; the defaults are 15 and 5. *)
Theorem focus_iff_outside_or_zoomed_out
        (this : t) (m : Map) (bounds : LatLngBounds) (lat lng : JS.number) :
  map this = Some m ->
  getBounds m = Some bounds ->
  let r := onGeolocationSuccess lat lng this in
  result r = Normal tt /\
  (needsFocus this m bounds (mkLatLng lat lng) ->
   filter isCameraCall (calls r) =
   [Map_setZoom (focusedZoomLevel this); Map_panTo (mkLatLng lat lng)]) /\
  (~ needsFocus this m bounds (mkLatLng lat lng) ->
   filter isCameraCall (calls r) = []) /\
  filter isCameraCall (calls r) = calls (focusOnLocation lat lng this) /\
  focusedZoomLevel new = 15 /\ minFocusedZoomLevel new = 5.
Proof.
  intros Hm Hb r.
  assert (Hfocus := focusOnLocation_calls this m bounds lat lng Hm Hb).
  assert (Hr : result r = Normal tt /\
               filter isCameraCall (calls r) =
               calls (focusOnLocation lat lng this)).
  { subst r.
    assert (Hknown : boundsKnown this).
    { unfold boundsKnown. rewrite Hm, Hb. discriminate. }
    destruct (focusOnLocation_frame this lat lng Hknown)
      as (H1 & Hcamera & _).
    destruct (setUserMarker_frame
                (final (focusOnLocation lat lng this)) lat lng)
      as (H2 & Hmarker & _).
    destruct (setUserLocationCirclePosition_frame
                (final (setUserMarker lat lng
                          (final (focusOnLocation lat lng this)))) lat lng)
      as (H3 & Hcircle & _).
    rewrite (onGeolocationSuccess_steps this lat lng H1 H2).
    cbn [result calls]. split; [exact H3|].
    rewrite !filter_app, (filter_all _ _ Hcamera).
    rewrite (filter_none isMarkerCall isCameraCall _
               ltac:(intros []; simpl; congruence) Hmarker).
    rewrite (filter_none isCircleCall isCameraCall _
               ltac:(intros []; simpl; congruence) Hcircle).
    rewrite !app_nil_r.
    destruct (JS.isFunction (onGeolocationSuccessCallback this));
      reflexivity. }
  destruct Hr as [Hres Hcam]. rewrite Hcam, Hfocus. unfold needsFocus.
  repeat split; try assumption.
  - intros [Hout | Hzoom].
    + now rewrite Hout.
    + apply Z.ltb_lt in Hzoom. rewrite Hzoom, orb_true_r. reflexivity.
  - intros Hno.
    destruct (contains bounds (mkLatLng lat lng)) eqn:Hin;
      [|exfalso; apply Hno; now left].
    destruct (Z.ltb_spec (getZoom m) (minFocusedZoomLevel this));
      [exfalso; apply Hno; now right | reflexivity].
Qed.



(** C1 at its failing input: right after [initializeMap] the map is at the
    default zoom 2, below [minFocusedZoomLevel] (5), so the recenter-and-zoom
    is due for every coordinate; the surface reports no bounds yet,
    [getBounds()] is [undefined], and the success path ends in a
    [TypeError] without one camera call. *)
Theorem success_path_without_bounds_issues_no_focus :
  map justInitialized = Some (mkMap None 2) /\
  getZoom (mkMap None 2) < minFocusedZoomLevel justInitialized /\
  result (onGeolocationSuccess (lat newYork) (lng newYork) justInitialized) =
    Throw TypeError /\
  filter isCameraCall
    (calls (onGeolocationSuccess (lat newYork) (lng newYork) justInitialized))
  = [] /\
  filter isCameraCall
    (calls (onGeolocationSuccess (lat newYork) (lng newYork) justInitialized))
  <> [Map_setZoom (focusedZoomLevel justInitialized); Map_panTo newYork].
Proof.
  split; [reflexivity|]. split; [reflexivity|]. split; [reflexivity|].
  split; [reflexivity | discriminate].
Qed.

(** C3 at its failing input: right after [initializeMap], before the
    surface reports bounds, [focusOnLocation] raises a [TypeError] and
    issues no call; the success handler stops there, after the host
    callback and before the marker and the circle. *)
Theorem focusOnLocation_without_bounds_throws :
  getBounds (mkMap None 2) = None /\
  map justInitialized = Some (mkMap None 2) /\
  result (focusOnLocation (JS.ofZ 40) (JS.ofZ (-74)) justInitialized) =
    Throw TypeError /\
  calls (focusOnLocation (JS.ofZ 40) (JS.ofZ (-74)) justInitialized) = [] /\
  result (onGeolocationSuccess (JS.ofZ 40) (JS.ofZ (-74)) justInitialized) =
    Throw TypeError /\
  calls (onGeolocationSuccess (JS.ofZ 40) (JS.ofZ (-74)) justInitialized) =
    [SuccessCallback (JS.ofZ 40) (JS.ofZ (-74))].
Proof. repeat split; reflexivity. Qed.

(** The same on every initialized map without bounds. *)
Lemma focusOnLocation_unknown_bounds (this : t) (m : Map)
      (lat lng : JS.number) :
  map this = Some m -> getBounds m = None ->
  focusOnLocation lat lng this = mkOutcome (Throw TypeError) this [].
Proof.
  intros Hm Hb. destruct this; simpl in *; subst.
  destruct m as [b z]; simpl in *; subst. reflexivity.
Qed.

(** C4. The error handler and the permission-timeout handler end normally,
    leave the widget as it was (geolocator and its cached position, map,
    user marker, circle) and make no call but the host callback, when one
    is set. *)
Theorem error_and_timeout_only_notify (this : t) (errorMessage : string) :
  onGeolocationError errorMessage this =
    mkOutcome (Normal tt) this
      (if JS.isFunction (onGeolocationErrorCallback this)
       then [ErrorCallback errorMessage] else []) /\
  onGeolocationPermissionTimeout this =
    mkOutcome (Normal tt) this
      (if JS.isFunction (onGeolocationPermissionTimeoutCallback this)
       then [PermissionTimeoutCallback
               (Geolocator.isCurrentPositionAvailable (geolocator this))]
       else []) /\
  filter isSurfaceCall (calls (onGeolocationError errorMessage this)) = [] /\
  filter isSurfaceCall (calls (onGeolocationPermissionTimeout this)) = [] /\
  Geolocator.currentPosition
    (geolocator (final (onGeolocationError errorMessage this))) =
    Geolocator.currentPosition (geolocator this) /\
  Geolocator.currentPosition
    (geolocator (final (onGeolocationPermissionTimeout this))) =
    Geolocator.currentPosition (geolocator this).
Proof.
  unfold onGeolocationError, onGeolocationPermissionTimeout, notify, when,
    bind; simpl.
  destruct (JS.isFunction (onGeolocationErrorCallback this));
    destruct (JS.isFunction (onGeolocationPermissionTimeoutCallback this));
    repeat split; reflexivity.
Qed.

(** C5. The request handler clears the geolocator's cached position, then
    detaches the user marker (when there is one), then hides the circle
    (when it is visible), and only then calls the host's request callback
    (when one is set); afterwards no position is cached, the marker is off
    the map and the circle is hidden. *)
Theorem request_clears_before_notifying (this : t) :
  let r := onGeolocationRequest this in
  result r = Normal tt /\
  calls r =
    [Geolocator_clearCurrentPosition]
    ++ (if isNull (userMarker this) then [] else [Marker_setMap false])
    ++ match userLocationCircle this with
       | Some c => if getVisible c then [Circle_setVisible false] else []
       | None => []
       end
    ++ (if JS.isFunction (onGeolocationRequestCallback this)
        then [RequestCallback] else []) /\
  Geolocator.currentPosition (geolocator (final r)) = None /\
  (forall mk, userMarker (final r) = Some mk -> attached mk = false) /\
  (forall c, userLocationCircle (final r) = Some c -> getVisible c = false).
Proof.
  widget_cases this; simpl; repeat split; try reflexivity;
    intros x Hx; inversion Hx; reflexivity.
Qed.

(** C6. Before [initializeMap] (the map is [null]) placing the user marker,
    centering, zooming and focusing all return normally, leave the widget
    as it was and make no call. *)
Theorem positioning_before_initializeMap_is_noop
        (this : t) (lat lng : JS.number) (zoom : Z) :
  map this = None ->
  setUserMarker lat lng this = mkOutcome (Normal tt) this [] /\
  centerMap lat lng this = mkOutcome (Normal tt) this [] /\
  zoomMap zoom this = mkOutcome (Normal tt) this [] /\
  focusOnLocation lat lng this = mkOutcome (Normal tt) this [].
Proof.
  intros Hm. destruct this; simpl in Hm; subst.
  repeat split; reflexivity.
Qed.

(** C7. When the host has set a permission-timeout callback the handler
    calls it once, and the boolean any such notification carries is [true]
    exactly when the geolocator holds a cached position at that moment. *)
Theorem timeout_reports_cached_position (this : t) :
  (JS.isFunction (onGeolocationPermissionTimeoutCallback this) = true ->
   calls (onGeolocationPermissionTimeout this) =
   [PermissionTimeoutCallback
      (Geolocator.isCurrentPositionAvailable (geolocator this))]) /\
  (forall available : bool,
     In (PermissionTimeoutCallback available)
        (calls (onGeolocationPermissionTimeout this)) ->
     (available = true <->
      exists c, Geolocator.currentPosition (geolocator this) = Some c)).
Proof.
  unfold onGeolocationPermissionTimeout, notify, when, bind; simpl.
  destruct (JS.isFunction (onGeolocationPermissionTimeoutCallback this));
    simpl; split; try discriminate; try reflexivity.
  - intros available [Heq | []]. inversion Heq; subst.
    unfold Geolocator.isCurrentPositionAvailable.
    destruct (Geolocator.currentPosition (geolocator this)) as [c|].
    + split; [intros _; now exists c | reflexivity].
    + split; [discriminate | intros [c Hc]; discriminate].
  - intros available [].
Qed.

Lemma focus_iff_outside_or_zoomed_out_witness :
  map scenario = Some (mkMap (Some elsewhere) 2) /\
  getBounds (mkMap (Some elsewhere) 2) = Some elsewhere /\
  needsFocus scenario (mkMap (Some elsewhere) 2) elsewhere newYork /\
  filter isCameraCall
    (calls (onGeolocationSuccess (lat newYork) (lng newYork) scenario)) =
  [Map_setZoom 15; Map_panTo newYork].
Proof.
  assert (Hneeds : needsFocus scenario (mkMap (Some elsewhere) 2)
                              elsewhere newYork) by (left; reflexivity).
  split; [reflexivity|]. split; [reflexivity|]. split; [exact Hneeds|].
  destruct (focus_iff_outside_or_zoomed_out
              scenario (mkMap (Some elsewhere) 2) elsewhere
              (lat newYork) (lng newYork) eq_refl eq_refl)
    as (_ & Hfocus & _).
  exact (Hfocus Hneeds).
Defined.


Lemma request_clears_before_notifying_witness :
  userMarker (final (onGeolocationRequest tracked)) =
    Some (mkMarker false (Some DROP) false (Some newYork)) /\
  attached (mkMarker false (Some DROP) false (Some newYork)) = false /\
  userLocationCircle (final (onGeolocationRequest tracked)) =
    Some (mkCircle false (Some newYork)) /\
  getVisible (mkCircle false (Some newYork)) = false.
Proof.
  assert (Emarker : userMarker (final (onGeolocationRequest tracked)) =
                    Some (mkMarker false (Some DROP) false (Some newYork)))
    by (vm_compute; reflexivity).
  assert (Ecircle : userLocationCircle (final (onGeolocationRequest tracked)) =
                    Some (mkCircle false (Some newYork)))
    by (vm_compute; reflexivity).
  destruct (request_clears_before_notifying tracked)
    as (_ & _ & _ & Hmarker & Hcircle).
  split; [exact Emarker|]. split; [exact (Hmarker _ Emarker)|].
  split; [exact Ecircle|]. exact (Hcircle _ Ecircle).
Defined.

Lemma positioning_before_initializeMap_is_noop_witness :
  map new = None /\
  focusOnLocation (lat newYork) (lng newYork) new =
  mkOutcome (Normal tt) new [].
Proof.
  split; [reflexivity|].
  destruct (positioning_before_initializeMap_is_noop
              new (lat newYork) (lng newYork) 15 eq_refl)
    as (_ & _ & _ & Hfocus).
  exact Hfocus.
Defined.

Lemma timeout_reports_cached_position_witness :
  In (PermissionTimeoutCallback true)
     (calls (onGeolocationPermissionTimeout
               (withCachedPosition newYork scenario))) /\
  (true = true <->
   exists c,
     Geolocator.currentPosition
       (geolocator (withCachedPosition newYork scenario)) = Some c).
Proof.
  assert (Hin : In (PermissionTimeoutCallback true)
                   (calls (onGeolocationPermissionTimeout
                             (withCachedPosition newYork scenario))))
    by (left; reflexivity).
  split; [exact Hin|].
  destruct (timeout_reports_cached_position
              (withCachedPosition newYork scenario)) as [_ Hcarry].
  exact (Hcarry true Hin).
Defined.

(** The widget on the scenario: the first fix moves the camera, places the
    marker and shows the circle; a second fix at the same place, once the
    viewport shows it at zoom 15, leaves the camera alone. *)
Example scenario_first_fix :
  calls (onGeolocationSuccess (lat newYork) (lng newYork) scenario) =
  [SuccessCallback (lat newYork) (lng newYork);
   Map_setZoom 15; Map_panTo newYork;
   Marker_new; Marker_setMap true; Marker_setAnimation DROP;
   Marker_setPosition newYork;
   Circle_setVisible true; Circle_setCenter newYork].
Proof. reflexivity. Qed.

Example scenario_second_fix :
  calls (onGeolocationSuccess (lat newYork) (lng newYork)
           (laidOut wholeWorld 15 tracked)) =
  [SuccessCallback (lat newYork) (lng newYork);
   Marker_setMap true; Marker_setAnimation DROP; Marker_setPosition newYork;
   Circle_setCenter newYork].
Proof. vm_compute. reflexivity. Qed.

Example scenario_new_request :
  calls (onGeolocationRequest tracked) =
  [Geolocator_clearCurrentPosition; Marker_setMap false;
   Circle_setVisible false; RequestCallback].
Proof. vm_compute. reflexivity. Qed.

(** ** The widget over the turns of the event loop *)

Lemma bind_throw {A B} (m : js A) (k : A -> js B) (this : t) (e : exception) :
  result (m this) = Throw e ->
  bind m k this = mkOutcome (Throw e) (final (m this)) (calls (m this)).
Proof. intros H. unfold bind. rewrite H. reflexivity. Qed.

Lemma setUserMarker_placed (this : t) (m : Map) (lat lng : JS.number) :
  map this = Some m ->
  setUserMarker lat lng this =
  mkOutcome (Normal tt)
    (set_userMarker this (Some (placed (mkLatLng lat lng) (userMarker this))))
    ((if isNull (userMarker this) then [Marker_new] else [])
     ++ [Marker_setMap true; Marker_setAnimation DROP;
         Marker_setPosition (mkLatLng lat lng)]).
Proof.
  intros Hm. destruct this; simpl in Hm; subst.
  destruct userMarker0; reflexivity.
Qed.

Lemma onGeolocationRequest_run (this : t) :
  onGeolocationRequest this =
  mkOutcome (Normal tt)
    (set_userLocationCircle
       (set_userMarker
          (set_geolocator this
             (Geolocator.clearCurrentPosition (geolocator this)))
          (option_map detached (userMarker this)))
       (option_map hidden (userLocationCircle this)))
    ([Geolocator_clearCurrentPosition]
     ++ (if isNull (userMarker this) then [] else [Marker_setMap false])
     ++ match userLocationCircle this with
        | Some c => if getVisible c then [Circle_setVisible false] else []
        | None => []
        end
     ++ (if JS.isFunction (onGeolocationRequestCallback this)
         then [RequestCallback] else [])).
Proof.
  destruct this as [g m [mk|] [[[|] ce]|] [|] cbT cbS cbE w fz mz];
    reflexivity.
Qed.

(** The success handler, by the state of the map. *)
Lemma onGeolocationSuccess_null (this : t) (lat lng : JS.number) :
  map this = None ->
  onGeolocationSuccess lat lng this =
  mkOutcome (Normal tt)
    (set_userLocationCircle this
       (option_map (fun _ => shown (mkLatLng lat lng))
                   (userLocationCircle this)))
    ((if JS.isFunction (onGeolocationSuccessCallback this)
      then [SuccessCallback lat lng] else [])
     ++ match userLocationCircle this with
        | Some c => (if getVisible c then [] else [Circle_setVisible true])
                    ++ [Circle_setCenter (mkLatLng lat lng)]
        | None => []
        end).
Proof.
  intros Hm.
  destruct this as [g m mk [[[|] ce]|] cbR cbT [|] cbE w fz mz];
    simpl in Hm; subst; reflexivity.
Qed.

Lemma onGeolocationSuccess_unknown_bounds (this : t) (m : Map)
      (lat lng : JS.number) :
  map this = Some m -> getBounds m = None ->
  onGeolocationSuccess lat lng this =
  mkOutcome (Throw TypeError) this
    (if JS.isFunction (onGeolocationSuccessCallback this)
     then [SuccessCallback lat lng] else []).
Proof.
  intros Hm Hb.
  destruct this as [g wm mk ci cbR cbT [|] cbE w fz mz];
    simpl in Hm; subst; destruct m as [b z]; simpl in Hb; subst; reflexivity.
Qed.

Lemma onGeolocationSuccess_known_bounds (this : t) (m : Map)
      (bounds : LatLngBounds) (lat lng : JS.number) :
  map this = Some m -> getBounds m = Some bounds ->
  let r := onGeolocationSuccess lat lng this in
  result r = Normal tt /\
  isNull (map (final r)) = false /\
  userMarker (final r) =
    Some (placed (mkLatLng lat lng) (userMarker this)) /\
  userLocationCircle (final r) =
    option_map (fun _ => shown (mkLatLng lat lng)) (userLocationCircle this) /\
  markersCreated (calls r) = (if isNull (userMarker this) then 1 else 0)%nat /\
  (userLocationCircle this = None -> filter isCircleCall (calls r) = []).
Proof.
  intros Hm Hb r. subst r.
  pose proof (focusOnLocation_calls this m bounds lat lng Hm Hb) as Hfocus.
  assert (Hknown : boundsKnown this).
  { unfold boundsKnown. rewrite Hm, Hb. discriminate. }
  destruct (focusOnLocation_frame this lat lng Hknown)
    as (H1 & Hcamera & Hmk1 & Hci1 & Hmap1).
  destruct (map (final (focusOnLocation lat lng this))) as [m1|] eqn:Hm1;
    [|rewrite Hm in Hmap1; discriminate].
  pose proof (setUserMarker_placed _ m1 lat lng Hm1) as Hplace.
  assert (H2 : result (setUserMarker lat lng
                         (final (focusOnLocation lat lng this))) = Normal tt)
    by now rewrite Hplace.
  rewrite (onGeolocationSuccess_steps this lat lng H1 H2).
  rewrite Hplace. cbn [final calls result].
  rewrite setUserLocationCirclePosition_run. rewrite Hmk1.
  assert (Hci : userLocationCircle
                  (set_userMarker (final (focusOnLocation lat lng this))
                     (Some (placed (mkLatLng lat lng) (userMarker this)))) =
                userLocationCircle this) by exact Hci1.
  assert (Hmap : isNull (map (set_userMarker
                    (final (focusOnLocation lat lng this))
                    (Some (placed (mkLatLng lat lng) (userMarker this)))))
                 = false).
  { change (isNull (map (final (focusOnLocation lat lng this))) = false).
    now rewrite Hm1. }
  assert (Hcam0 : markersCreated (calls (focusOnLocation lat lng this)) = 0%nat
                  /\ filter isCircleCall
                       (calls (focusOnLocation lat lng this)) = []).
  { rewrite Hfocus. destruct (_ || _); split; reflexivity. }
  destruct Hcam0 as [Hnew0 Hcirc0].
  rewrite Hci.
  destruct (userLocationCircle this) as [[vis ce]|] eqn:Hc;
    cbn [result final calls option_map getVisible].
  - repeat split; try assumption; try discriminate.
    unfold markersCreated in *. rewrite !filter_app, !length_app, Hnew0.
    destruct (JS.isFunction (onGeolocationSuccessCallback this));
      destruct (isNull (userMarker this)); destruct vis; reflexivity.
  - repeat split; try assumption.
    + unfold markersCreated in *. rewrite !filter_app, !length_app, Hnew0.
      destruct (JS.isFunction (onGeolocationSuccessCallback this));
        destruct (isNull (userMarker this)); reflexivity.
    + intros _. rewrite !filter_app, Hcirc0.
      destruct (JS.isFunction (onGeolocationSuccessCallback this));
        destruct (isNull (userMarker this)); reflexivity.
Qed.

Lemma onGeolocationError_run (this : t) (errorMessage : string) :
  onGeolocationError errorMessage this =
  mkOutcome (Normal tt) this
    (if JS.isFunction (onGeolocationErrorCallback this)
     then [ErrorCallback errorMessage] else []).
Proof.
  unfold onGeolocationError, notify, when, bind; simpl.
  destruct (JS.isFunction (onGeolocationErrorCallback this)); reflexivity.
Qed.

Lemma onGeolocationPermissionTimeout_run (this : t) :
  onGeolocationPermissionTimeout this =
  mkOutcome (Normal tt) this
    (if JS.isFunction (onGeolocationPermissionTimeoutCallback this)
     then [PermissionTimeoutCallback
             (Geolocator.isCurrentPositionAvailable (geolocator this))]
     else []).
Proof.
  unfold onGeolocationPermissionTimeout, notify, when, bind; simpl.
  destruct (JS.isFunction (onGeolocationPermissionTimeoutCallback this));
    reflexivity.
Qed.

Lemma viewportChanged_run (bounds : LatLngBounds) (zoom : Z) (this : t) :
  viewportChanged bounds zoom this =
  mkOutcome (Normal tt)
    (if isNull (map this) then this else laidOut bounds zoom this) [].
Proof. destruct this as [g [m|] mk ci cbR cbT cbS cbE w fz mz]; reflexivity. Qed.

Lemma turns_cons (e : event) (es : list event) (this : t) :
  fst (turns (e :: es) this) = fst (turns es (final (dispatch e this))) /\
  snd (turns (e :: es) this) =
    calls (dispatch e this) ++ snd (turns es (final (dispatch e this))).
Proof.
  simpl. destruct (turns es (final (dispatch e this))). split; reflexivity.
Qed.

Lemma turn_kinds (e : event) (this : t) : turnKind e this.
Proof.
  destruct e as [ | lat lng | | msg | | bounds zoom | position].
  - (* RequestMade *)
    apply Requested; [reflexivity | | | | | | ]; simpl dispatch;
      rewrite onGeolocationRequest_run; cbn [final calls];
      try reflexivity; try intros Hnone;
      destruct (isNull (userMarker this));
      destruct (userLocationCircle this) as [[[|] ce]|];
      destruct (JS.isFunction (onGeolocationRequestCallback this));
      try discriminate; reflexivity.
  - (* PositionUpdate *)
    destruct (map this) as [m|] eqn:Hm.
    + destruct (getBounds m) as [bounds|] eqn:Hb.
      * destruct (onGeolocationSuccess_known_bounds this m bounds lat lng
                    Hm Hb) as (_ & Hmap & Hmk & Hci & Hnew & Hnocircle).
        apply (Fixed _ _ lat lng); try assumption; try reflexivity.
        now rewrite Hm.
      * apply Untouched; simpl dispatch;
          rewrite (onGeolocationSuccess_unknown_bounds this m lat lng Hm Hb);
          cbn [final calls]; try reflexivity; try (intros; assumption);
          try discriminate;
          destruct (JS.isFunction (onGeolocationSuccessCallback this));
          reflexivity.
    + apply (CircleOnly _ _ lat lng); try reflexivity; try assumption;
        simpl dispatch; rewrite (onGeolocationSuccess_null this lat lng Hm);
        cbn [final calls]; try reflexivity; try assumption;
        try intros Hnone;
        destruct (JS.isFunction (onGeolocationSuccessCallback this));
        destruct (userLocationCircle this) as [[[|] ce]|];
        try discriminate; reflexivity.
  - (* PermissionTimeout *)
    apply Untouched; simpl dispatch;
      rewrite onGeolocationPermissionTimeout_run; cbn [final calls];
      try reflexivity; try (intros; assumption);
      destruct (JS.isFunction (onGeolocationPermissionTimeoutCallback this));
      reflexivity.
  - (* PositionError *)
    apply Untouched; simpl dispatch;
      rewrite onGeolocationError_run; cbn [final calls];
      try reflexivity; try (intros; assumption);
      destruct (JS.isFunction (onGeolocationErrorCallback this));
      reflexivity.
  - (* MapInitialized *)
    apply Untouched; reflexivity.
  - (* ViewportChanged *)
    apply Untouched; simpl dispatch; rewrite viewportChanged_run;
      cbn [final calls]; try reflexivity;
      destruct (isNull (map this)) eqn:Hnull; try reflexivity;
      try (intros; assumption).
    intros H. discriminate.
  - (* GeolocatorChanged *)
    apply Untouched; try reflexivity. intros H; exact H.
Qed.

Lemma markersCreated_app (xs ys : list call) :
  markersCreated (xs ++ ys) = (markersCreated xs + markersCreated ys)%nat.
Proof. unfold markersCreated. now rewrite filter_app, length_app. Qed.

Lemma isNull_option_map {A B} (f : A -> B) (x : option A) :
  isNull (option_map f x) = isNull x.
Proof. destruct x; reflexivity. Qed.

Lemma turns_create_at_most_one (es : list event) :
  forall this,
    (markersCreated (snd (turns es this)) <=
     if isNull (userMarker this) then 1 else 0)%nat.
Proof.
  induction es as [|e es IH]; intros this.
  - simpl. destruct (isNull (userMarker this)); unfold markersCreated; simpl; lia.
  - destruct (turns_cons e es this) as [_ Hcalls]. rewrite Hcalls.
    rewrite markersCreated_app.
    pose proof (IH (final (dispatch e this))) as Hrest.
    destruct (turn_kinds e this)
      as [lat lng _ _ _ Hmk _ Hnew _
         | _ _ Hmk _ Hnew _ _
         | lat lng _ _ _ Hmk _ Hnew _
         | _ Hmk _ Hnew _ _];
      rewrite Hmk in Hrest; rewrite Hnew;
      try rewrite isNull_option_map in Hrest;
      simpl in Hrest; destruct (isNull (userMarker this)); lia.
Qed.

(** X8. Over any sequence of events (requests, position updates, errors,
    timeouts, [initializeMap], viewport changes) the widget constructs at
    most one user marker, and none at all when it already holds one: after
    a request detached it, the next position update puts the same marker
    back on the map. *)
Theorem user_marker_constructed_at_most_once (es : list event) (this : t) :
  (markersCreated (snd (turns es this)) <= 1)%nat /\
  (userMarker this <> None -> markersCreated (snd (turns es this)) = 0%nat).
Proof.
  pose proof (turns_create_at_most_one es this) as H.
  destruct (userMarker this) as [mk|]; simpl in H; split; try lia.
  intros Hne. now elim Hne.
Qed.

Lemma user_marker_constructed_at_most_once_witness :
  userMarker tracked <> None /\
  markersCreated
    (snd (turns [RequestMade;
                 PositionUpdate (lat newYork) (lng newYork);
                 PositionUpdate (lat newYork) (lng newYork)] tracked)) = 0%nat.
Proof.
  assert (Hmk : userMarker tracked <> None) by (vm_compute; discriminate).
  split; [exact Hmk|].
  destruct (user_marker_constructed_at_most_once
              [RequestMade;
               PositionUpdate (lat newYork) (lng newYork);
               PositionUpdate (lat newYork) (lng newYork)] tracked)
    as [_ Hnone].
  exact (Hnone Hmk).
Defined.

Lemma turn_keeps_marker (e : event) (this : t) :
  markerWellFormed this -> markerWellFormed (final (dispatch e this)).
Proof.
  unfold markerWellFormed. intros WF.
  destruct (turn_kinds e this)
    as [lat lng _ _ Hmap Hmk _ _ _
       | _ Hmap Hmk _ _ _ _
       | lat lng _ Hnomap Hmap Hmk _ _ _
       | Hmap Hmk _ _ _ _];
    rewrite Hmk.
  - (* placed *)
    intros mk Heq. injection Heq as <-. unfold placed; simpl.
    split; [discriminate|]. intros _ Hnone. now rewrite Hnone in Hmap.
  - (* detached *)
    intros mk Heq. destruct (userMarker this) as [mk0|]; simpl in Heq;
      [|discriminate].
    injection Heq as <-. destruct (WF mk0 eq_refl) as (Hp & _).
    unfold detached; simpl. split; [exact Hp | discriminate].
  - (* no map *)
    intros mk Heq. destruct (WF mk Heq) as (Hp & Hatt).
    split; [exact Hp|]. intros Hon. now elim (Hatt Hon).
  - (* untouched *)
    intros mk Heq. destruct (WF mk Heq) as (Hp & Hatt).
    split; [exact Hp|]. intros Hon Hnone.
    specialize (Hatt Hon).
    destruct (map this) as [m|]; [|now elim Hatt].
    specialize (Hmap eq_refl). now rewrite Hnone in Hmap.
Qed.

Lemma turn_keeps_circle (e : event) (this : t) :
  markerWellFormed this -> circleOnMarker this ->
  circleOnMarker (final (dispatch e this)).
Proof.
  unfold markerWellFormed, circleOnMarker. intros WF CM.
  destruct (turn_kinds e this)
    as [lat lng _ _ _ Hmk Hci _ _
       | _ _ Hmk Hci _ _ _
       | lat lng _ Hnomap _ Hmk Hci _ _
       | _ Hmk Hci _ _ _];
    rewrite Hmk, Hci.
  - intros mk c Heq _ Hc _. injection Heq as <-.
    destruct (userLocationCircle this); simpl in Hc; [|discriminate].
    injection Hc as <-. reflexivity.
  - intros mk c Heq Hatt. destruct (userMarker this) as [mk0|];
      simpl in Heq; [|discriminate].
    injection Heq as <-. discriminate Hatt.
  - intros mk c Heq Hon. destruct (WF mk Heq) as (_ & Hatt).
    now elim (Hatt Hon).
  - exact CM.
Qed.

Lemma turns_keep_marker (es : list event) :
  forall this,
    markerWellFormed this -> markerWellFormed (fst (turns es this)).
Proof.
  induction es as [|e es IH]; intros this WF; [exact WF|].
  destruct (turns_cons e es this) as [Hfst _]. rewrite Hfst.
  apply IH. now apply turn_keeps_marker.
Qed.

Lemma turns_keep_circle (es : list event) :
  forall this,
    markerWellFormed this -> circleOnMarker this ->
    circleOnMarker (fst (turns es this)).
Proof.
  induction es as [|e es IH]; intros this WF CM; [exact CM|].
  destruct (turns_cons e es this) as [Hfst _]. rewrite Hfst.
  apply IH; [now apply turn_keeps_marker | now apply turn_keeps_circle].
Qed.

(** X9. Over any sequence of events the user marker, once there is one,
    always has a position, and it is on a map only when the widget has a
    map (given that it was so at the start, as it is for a widget without
    a marker). *)
Theorem user_marker_stays_well_formed (es : list event) (this : t) :
  markerWellFormed this -> markerWellFormed (fst (turns es this)).
Proof. apply turns_keep_marker. Qed.

(** X10. Over any sequence of events, whenever the marker is on the map and
    the circle is visible, the circle is centered on the marker's position
    (given that it was so at the start, as it is for a widget without a
    marker). *)
Theorem circle_stays_on_marker (es : list event) (this : t) :
  markerWellFormed this -> circleOnMarker this ->
  circleOnMarker (fst (turns es this)).
Proof. apply turns_keep_circle. Qed.

Lemma new_widget_invariants (this : t) :
  userMarker this = None -> markerWellFormed this /\ circleOnMarker this.
Proof.
  intros Hnone. split.
  - intros mk Heq. rewrite Hnone in Heq. discriminate.
  - intros mk c Heq. rewrite Hnone in Heq. discriminate.
Qed.

Lemma user_marker_stays_well_formed_witness :
  markerWellFormed
    (fst (turns [MapInitialized; ViewportChanged elsewhere 2;
                 PositionUpdate (lat newYork) (lng newYork); RequestMade]
                (withCallbacks new))).
Proof.
  destruct (new_widget_invariants (withCallbacks new) eq_refl) as [WF _].
  exact (user_marker_stays_well_formed _ _ WF).
Defined.

Lemma circle_stays_on_marker_witness :
  circleOnMarker
    (fst (turns [RequestMade; ViewportChanged wholeWorld 15;
                 PositionUpdate (lat newYork) (lng newYork)] scenario)).
Proof.
  destruct (new_widget_invariants scenario eq_refl) as [WF CM].
  exact (circle_stays_on_marker _ _ WF CM).
Defined.

Lemma turn_keeps_cleared (e : event) (this : t) :
  isPositionUpdate e = false ->
  cleared this ->
  cleared (final (dispatch e this)) /\
  filter isCameraCall (calls (dispatch e this)) = [].
Proof.
  unfold cleared. intros Hquiet [Hmarker Hcircle].
  destruct (turn_kinds e this)
    as [lat lng He _ _ _ _ _ _
       | _ _ Hmk Hci _ Hcam _
       | lat lng He _ _ _ _ _ _
       | _ Hmk Hci _ _ Hcam];
    try (subst e; discriminate Hquiet).
  - rewrite Hmk, Hci. split; [split|exact Hcam].
    + intros mk Heq. destruct (userMarker this); simpl in Heq;
        [injection Heq as <-; reflexivity | discriminate].
    + intros c Heq. destruct (userLocationCircle this); simpl in Heq;
        [injection Heq as <-; reflexivity | discriminate].
  - rewrite Hmk, Hci. split; [now split | now apply Hcam].
Qed.

Lemma request_clears (this : t) : cleared (final (dispatch RequestMade this)).
Proof.
  simpl dispatch. rewrite onGeolocationRequest_run. cbn [final].
  split.
  - intros mk Heq. simpl in Heq. destruct (userMarker this); simpl in Heq;
      [injection Heq as <-; reflexivity | discriminate].
  - intros c Heq. simpl in Heq. destruct (userLocationCircle this);
      simpl in Heq; [injection Heq as <-; reflexivity | discriminate].
Qed.

Lemma quiet_turns_keep_cleared (es : list event) :
  forall this,
    forallb (fun e => negb (isPositionUpdate e)) es = true ->
    cleared this ->
    cleared (fst (turns es this)) /\
    filter isCameraCall (snd (turns es this)) = [].
Proof.
  induction es as [|e es IH]; intros this Hquiet Hclear.
  - now split.
  - simpl in Hquiet. apply andb_true_iff in Hquiet.
    destruct Hquiet as [He Hes]. apply negb_true_iff in He.
    destruct (turns_cons e es this) as [Hfst Hsnd].
    rewrite Hfst, Hsnd, filter_app.
    destruct (turn_keeps_cleared e this He Hclear) as [Hclear' Hcam].
    rewrite Hcam. now apply IH.
Qed.

Lemma request_moves_no_camera (this : t) :
  filter isCameraCall (calls (dispatch RequestMade this)) = [].
Proof.
  destruct (turn_kinds RequestMade this)
    as [lat lng He _ _ _ _ _ _
       | _ _ _ _ _ Hcam _
       | lat lng He _ _ _ _ _ _
       | _ _ _ _ _ Hcam];
    try discriminate He; [exact Hcam | now apply Hcam].
Qed.

(** X11. From a request until the next position update, whatever else
    happens (errors, permission timeouts, further requests, [initializeMap],
    viewport changes), the marker stays off the map, the circle stays
    hidden and the widget never zooms or pans the map. *)
Theorem cleared_until_next_position_update (es : list event) (this : t) :
  forallb (fun e => negb (isPositionUpdate e)) es = true ->
  cleared (fst (turns (RequestMade :: es) this)) /\
  filter isCameraCall (snd (turns (RequestMade :: es) this)) = [].
Proof.
  intros Hquiet.
  destruct (turns_cons RequestMade es this) as [Hfst Hsnd].
  rewrite Hfst, Hsnd, filter_app, request_moves_no_camera.
  apply quiet_turns_keep_cleared; [exact Hquiet | apply request_clears].
Qed.

Lemma cleared_until_next_position_update_witness :
  cleared
    (fst (turns [RequestMade; PermissionTimeout; PositionError "denied";
                 ViewportChanged wholeWorld 15; RequestMade] tracked)).
Proof.
  destruct (cleared_until_next_position_update
              [PermissionTimeout; PositionError "denied";
               ViewportChanged wholeWorld 15; RequestMade] tracked eq_refl)
    as [Hclear _].
  exact Hclear.
Defined.

(** X12. The handlers never make the accuracy circle: as long as
    [initializeUserLocationCircle] has not been called, no sequence of
    events gives the widget a circle or makes a call on one. *)
Theorem no_circle_unless_initialized (es : list event) (this : t) :
  userLocationCircle this = None ->
  userLocationCircle (fst (turns es this)) = None /\
  filter isCircleCall (snd (turns es this)) = [].
Proof.
  revert this. induction es as [|e es IH]; intros this Hnone.
  - now split.
  - destruct (turns_cons e es this) as [Hfst Hsnd].
    rewrite Hfst, Hsnd, filter_app.
    assert (H : userLocationCircle (final (dispatch e this)) = None /\
                filter isCircleCall (calls (dispatch e this)) = []).
    { destruct (turn_kinds e this)
        as [lat lng _ _ _ _ Hci _ Hcalls
           | _ _ _ Hci _ _ Hcalls
           | lat lng _ _ _ _ Hci _ Hcalls
           | _ _ Hci _ Hcalls _];
        rewrite Hci, Hnone; split; try reflexivity;
        try (now apply Hcalls); exact Hcalls. }
    destruct H as [Hnone' Hcalls]. rewrite Hcalls.
    now apply IH.
Qed.

Lemma no_circle_unless_initialized_witness :
  userLocationCircle (withCallbacks new) = None /\
  filter isCircleCall
    (snd (turns [MapInitialized; ViewportChanged elsewhere 2; RequestMade;
                 PositionUpdate (lat newYork) (lng newYork)]
                (withCallbacks new))) = [].
Proof.
  split; [reflexivity|].
  destruct (no_circle_unless_initialized
              [MapInitialized; ViewportChanged elsewhere 2; RequestMade;
               PositionUpdate (lat newYork) (lng newYork)]
              (withCallbacks new) eq_refl) as [_ Hcalls].
  exact Hcalls.
Defined.

(** ** Edges of the success handler and of the circle *)



(** X14. A position update on a map that does not report its bounds calls
    the host callback and then ends in a [TypeError]: the widget is exactly
    as before, so the camera is not moved, and the marker and the circle
    keep showing what they showed. *)
Theorem position_update_without_bounds
        (this : t) (m : Map) (lat lng : JS.number) :
  map this = Some m -> getBounds m = None ->
  let r := onGeolocationSuccess lat lng this in
  result r = Throw TypeError /\
  final r = this /\
  calls r = (if JS.isFunction (onGeolocationSuccessCallback this)
             then [SuccessCallback lat lng] else []) /\
  fst (turns [PositionUpdate lat lng] this) = this.
Proof.
  intros Hm Hb r. subst r.
  destruct (turns_cons (PositionUpdate lat lng) [] this) as [Hfst _].
  rewrite Hfst. simpl dispatch.
  rewrite (onGeolocationSuccess_unknown_bounds this m lat lng Hm Hb).
  repeat split; reflexivity.
Qed.

Lemma position_update_without_bounds_witness :
  map justInitialized = Some (mkMap None 2) /\
  final (onGeolocationSuccess (lat newYork) (lng newYork) justInitialized)
  = justInitialized.
Proof.
  split; [reflexivity|].
  destruct (position_update_without_bounds
              justInitialized (mkMap None 2) (lat newYork) (lng newYork)
              eq_refl eq_refl) as (_ & Hsame & _).
  exact Hsame.
Defined.

(** X15. The circle's visibility is set only when it changes.  Hiding
    leaves the circle hidden and a second hiding does nothing and makes no
    call; showing the circle at a coordinate a second time makes the single
    call that centers it, without [setVisible]. *)
Theorem circle_visibility_set_only_on_change
        (this : t) (lat lng : JS.number) :
  let h1 := hideUserLocationCircle this in
  let h2 := hideUserLocationCircle (final h1) in
  let s1 := setUserLocationCirclePosition lat lng this in
  let s2 := setUserLocationCirclePosition lat lng (final s1) in
  final h2 = final h1 /\ calls h2 = [] /\
  userLocationCircle (final h1) =
    option_map hidden (userLocationCircle this) /\
  final s2 = final s1 /\
  calls s2 = (if isNull (userLocationCircle this) then []
              else [Circle_setCenter (mkLatLng lat lng)]).
Proof.
  destruct this as [g m mk [[[|] ce]|] cbR cbT cbS cbE w fz mz];
    repeat split; reflexivity.
Qed.



End GoogleMapProofs.
